(** * ezpass: a shallow embedding of the vault core and its command line

    The development follows [src/password_db.py] (class [PasswordDatabase])
    and [src/ezpass.py] ([clear_session], [main]).

    Conventions of the embedding.
    - A Python [str] is represented by its UTF-8 encoding, a [string] of
      8-bit characters; [str.encode()] and [bytes.decode()] are then the
      conversions between [string] and [list byte].
    - [time.time()] readings are rationals (seconds).
    - The process runs in a [World]: the three files of the vault directory
      (database, [.attempts], [.salt]) with their permission bits, the
      clock, the entropy cursor, the lines still to be typed at the
      terminal and the trace of observable events.
    - A computation is a function [World -> Outcome A * World]; a raised
      Python exception keeps the world it was raised in.
    - Left out: [conn.close()] (a connection holds no state of its own
      here), a failing [os.chmod] (the calls succeed, so the warning of
      [_init_db] is never printed) and the timer thread of
      [start_session_timer]; what the timer runs, [clear_session], is
      modelled as a function of the object it clears. *)

From Stdlib Require Import String Ascii List ZArith QArith Lqa Lia Bool.
From Stdlib.Strings Require Import Byte.
From Stdlib Require Import DecimalString Qround.
From Stdlib Require Import Permutation Sorted.
Import ListNotations.

Local Open Scope string_scope.
Local Open Scope list_scope.
Local Open Scope Z_scope.

(* ================================================================== *)
(** ** Python values *)

Definition str := string.
Definition bytes := list byte.

(** [s.encode()] and [b.decode()] (UTF-8). *)
Definition str_encode (s : str) : bytes := list_byte_of_string s.
Definition bytes_decode (b : bytes) : str := string_of_list_byte b.

(** [c in s] for a one-character [c]. *)
Fixpoint str_contains (c : ascii) (s : str) : bool :=
  match s with
  | EmptyString => false
  | String a rest => Ascii.eqb a c || str_contains c rest
  end.

(** [len(s) == 0]. *)
Definition str_is_empty (s : str) : bool :=
  match s with EmptyString => true | _ => false end.

(** Truth value of an optional command-line string: [None] and the empty
    string are false. *)
Definition truthy (o : option str) : bool :=
  match o with
  | Some s => negb (str_is_empty s)
  | None => false
  end.

(** [s.lower() == 'y']. *)
Definition lower_is_y (s : str) : bool := String.eqb s "y" || String.eqb s "Y".

Definition str_of_Z (z : Z) : str := NilZero.string_of_int (Z.to_int z).

(** [int(q)]: truncation towards zero. *)
Definition py_int (q : Q) : Z := Z.quot (Qnum q) (Zpos (Qden q)).

(** [max(a, b)]: [b] when it is strictly greater, else [a]. *)
Definition py_max (a b : Q) : Q := if Qle_bool b a then a else b.

(** The permission modes [0o600] and [0o700]. *)
Definition o600 : Z := 384.
Definition o700 : Z := 448.

(** [q > 0]. *)
Definition Qpositive (q : Q) : bool := negb (Qle_bool q 0).

(** The exceptions the modelled code raises or handles. *)
Inductive exn : Type :=
| SystemExit (code : Z)
| EOFError
| AttributeError (msg : str)
| ValueError (msg : str)
| InvalidToken
| Sqlite3Error (msg : str).

(** [isinstance(e, Exception)]: everything but [SystemExit]. *)
Definition is_Exception (e : exn) : bool :=
  match e with SystemExit _ => false | _ => true end.

(** [isinstance(e, sqlite3.Error)]. *)
Definition is_sqlite3_Error (e : exn) : bool :=
  match e with Sqlite3Error _ => true | _ => false end.

(** [isinstance(e, (EOFError, IOError))]. *)
Definition is_EOF_or_IOError (e : exn) : bool :=
  match e with EOFError => true | _ => false end.

(** [str(e)]. *)
Definition exn_str (e : exn) : str :=
  match e with
  | SystemExit c => str_of_Z c
  | EOFError => EmptyString
  | AttributeError m => m
  | ValueError m => m
  | InvalidToken => EmptyString
  | Sqlite3Error m => m
  end.

(* ================================================================== *)
(** ** The persisted store *)

(** A row of table [passwords]; the two timestamp columns hold the second
    at which [CURRENT_TIMESTAMP] was evaluated. *)
Record Row : Type := mkRow {
  id : Z;
  title : str;
  password : str;
  created_at : Z;
  updated_at : Z
}.

(** Content of the database file: an SQLite database, with or without the
    table [passwords], or something SQLite refuses to read. *)
Inductive DbFile : Type :=
| Sqlite (passwords : option (list Row))
| NotADatabase.

(** Content of [.attempts]: the JSON object written by the program, or
    something [json.load] fails on. *)
Inductive AttemptsFile : Type :=
| AttemptsJson (count : Z) (last_attempt : Q)
| CorruptJson.

(** The dictionary [attempts_data]. *)
Record AttemptsData : Type := mkAttempts {
  count : Z;
  last_attempt : Q
}.

Inductive Event : Type :=
| Print (s : str)
| PrintHelp
| Sleep (d : Q)
| GetPass (prompt : str)
| Input (prompt : str).

Record World : Type := mkWorld {
  db_file : option DbFile;
  attempts_file : option AttemptsFile;
  salt_file : option bytes;
  db_mode : Z;
  dir_mode : Z;
  salt_mode : Z;
  clock : Q;
  rng : nat;
  tty : list (Q * str);
  events : list Event
}.

Definition set_db_file (v : option DbFile) (w : World) : World :=
  mkWorld v (attempts_file w) (salt_file w) (db_mode w) (dir_mode w)
          (salt_mode w) (clock w) (rng w) (tty w) (events w).
Definition set_attempts_file (v : option AttemptsFile) (w : World) : World :=
  mkWorld (db_file w) v (salt_file w) (db_mode w) (dir_mode w)
          (salt_mode w) (clock w) (rng w) (tty w) (events w).
Definition set_salt_file (v : option bytes) (w : World) : World :=
  mkWorld (db_file w) (attempts_file w) v (db_mode w) (dir_mode w)
          (salt_mode w) (clock w) (rng w) (tty w) (events w).
Definition set_db_mode (v : Z) (w : World) : World :=
  mkWorld (db_file w) (attempts_file w) (salt_file w) v (dir_mode w)
          (salt_mode w) (clock w) (rng w) (tty w) (events w).
Definition set_dir_mode (v : Z) (w : World) : World :=
  mkWorld (db_file w) (attempts_file w) (salt_file w) (db_mode w) v
          (salt_mode w) (clock w) (rng w) (tty w) (events w).
Definition set_salt_mode (v : Z) (w : World) : World :=
  mkWorld (db_file w) (attempts_file w) (salt_file w) (db_mode w) (dir_mode w)
          v (clock w) (rng w) (tty w) (events w).
Definition set_clock (v : Q) (w : World) : World :=
  mkWorld (db_file w) (attempts_file w) (salt_file w) (db_mode w) (dir_mode w)
          (salt_mode w) v (rng w) (tty w) (events w).
Definition set_rng (v : nat) (w : World) : World :=
  mkWorld (db_file w) (attempts_file w) (salt_file w) (db_mode w) (dir_mode w)
          (salt_mode w) (clock w) v (tty w) (events w).
Definition set_tty (v : list (Q * str)) (w : World) : World :=
  mkWorld (db_file w) (attempts_file w) (salt_file w) (db_mode w) (dir_mode w)
          (salt_mode w) (clock w) (rng w) v (events w).
Definition emit (e : Event) (w : World) : World :=
  mkWorld (db_file w) (attempts_file w) (salt_file w) (db_mode w) (dir_mode w)
          (salt_mode w) (clock w) (rng w) (tty w) (events w ++ [e]).

(* ================================================================== *)
(** ** Computations: state and exceptions *)

Inductive Outcome (A : Type) : Type :=
| Return (a : A)
| Raise (e : exn).
Arguments Return {A} a.
Arguments Raise {A} e.

Definition M (A : Type) : Type := World -> Outcome A * World.

Definition ret {A} (a : A) : M A := fun w => (Return a, w).

Definition bind {A B} (c : M A) (k : A -> M B) : M B :=
  fun w =>
    match c w with
    | (Return a, w') => k a w'
    | (Raise e, w') => (Raise e, w')
    end.

Definition raise {A} (e : exn) : M A := fun w => (Raise e, w).

(** [try: c  except <those e with h e = Some k>: k]. *)
Definition try_except {A} (c : M A) (h : exn -> option (M A)) : M A :=
  fun w =>
    match c w with
    | (Return a, w') => (Return a, w')
    | (Raise e, w') =>
        match h e with
        | Some k => k w'
        | None => (Raise e, w')
        end
    end.

Declare Scope py_scope.
Delimit Scope py_scope with py.
Notation "x <- c ;; k" := (bind c (fun x => k))
  (at level 61, c at next level, right associativity) : py_scope.
Notation "c ;; k" := (bind c (fun _ => k))
  (at level 61, right associativity) : py_scope.
Local Open Scope py_scope.

Definition gets {A} (f : World -> A) : M A := fun w => (Return (f w), w).
Definition modify (f : World -> World) : M unit := fun w => (Return tt, f w).

(** [print(s)], [sys.exit(code)], [time.time()], [time.sleep(d)]. *)
Definition print (s : str) : M unit := modify (emit (Print s)).
Definition sys_exit {A} (code : Z) : M A := raise (SystemExit code).
Definition time_time : M Q := gets clock.
Definition time_sleep (d : Q) : M unit :=
  modify (fun w => emit (Sleep d) (set_clock (clock w + d)%Q w)).

(** Reading a line from the terminal: the next line of [tty], typed after
    the time that comes with it; [EOFError] when there is none. *)
Definition read_line (e : Event) : M str :=
  fun w =>
    match tty w with
    | [] => (Raise EOFError, emit e w)
    | (wait, line) :: rest =>
        (Return line, set_tty rest (set_clock (clock w + wait)%Q (emit e w)))
    end.
Definition getpass (prompt : str) : M str := read_line (GetPass prompt).
Definition input (prompt : str) : M str := read_line (Input prompt).

(* ================================================================== *)
(** ** SQLite statements used by the program *)

Definition has_title (t : str) (r : Row) : bool := String.eqb (title r) t.

(** The rowid SQLite gives to a new row of an [INTEGER PRIMARY KEY] table. *)
Definition next_rowid (rows : list Row) : Z :=
  1 + fold_right Z.max 0 (map id rows).

(** [INSERT INTO passwords (title, password) VALUES (?, ?)
     ON CONFLICT(title) DO UPDATE SET password = excluded.password,
                                      updated_at = CURRENT_TIMESTAMP]. *)
Definition upsert (t p : str) (now : Z) (rows : list Row) : list Row :=
  if existsb (has_title t) rows
  then map (fun r => if has_title t r
                     then mkRow (id r) (title r) p (created_at r) now
                     else r) rows
  else rows ++ [mkRow (next_rowid rows) t p now now].

(** [SELECT password FROM passwords WHERE title = ?] and [fetchone()]. *)
Definition select_password (t : str) (rows : list Row) : option str :=
  option_map password (find (has_title t) rows).

(** [ORDER BY title] (collation BINARY: bytewise comparison). *)
Fixpoint insert_sorted (s : str) (l : list str) : list str :=
  match l with
  | [] => [s]
  | x :: rest => if String.leb s x then s :: l else x :: insert_sorted s rest
  end.
Definition order_by (l : list str) : list str := fold_right insert_sorted [] l.

(** [SELECT title FROM passwords ORDER BY title]. *)
Definition select_titles (rows : list Row) : list str :=
  order_by (map title rows).

(** [DELETE FROM passwords WHERE title = ?]: the rows left, and
    [cursor.rowcount]. *)
Definition delete_rows (t : str) (rows : list Row) : list Row * Z :=
  (filter (fun r => negb (has_title t r)) rows,
   Z.of_nat (List.length (filter (has_title t) rows))).

(** [sqlite3.connect(path)]: creates an empty database when the file is
    absent; what the file holds is looked at by the first statement. *)
Definition sqlite3_connect : M unit :=
  modify (fun w => match db_file w with
                   | None => set_db_file (Some (Sqlite None)) w
                   | Some _ => w
                   end).

(** Running an [INSERT] or [DELETE] on table [passwords] and committing:
    [f] gives the new rows and the result of the statement. *)
Definition with_table {A} (f : list Row -> list Row * A) : M A :=
  fun w =>
    match db_file w with
    | Some (Sqlite (Some rows)) =>
        let (rows', a) := f rows in
        (Return a, set_db_file (Some (Sqlite (Some rows'))) w)
    | Some (Sqlite None) => (Raise (Sqlite3Error "no such table: passwords"), w)
    | Some NotADatabase => (Raise (Sqlite3Error "file is not a database"), w)
    | None => (Raise (Sqlite3Error "unable to open database file"), w)
    end.

(** Running a [SELECT] on table [passwords]: [f] gives what is fetched. *)
Definition query_table {A} (f : list Row -> A) : M A :=
  fun w =>
    match db_file w with
    | Some (Sqlite (Some rows)) => (Return (f rows), w)
    | Some (Sqlite None) => (Raise (Sqlite3Error "no such table: passwords"), w)
    | Some NotADatabase => (Raise (Sqlite3Error "file is not a database"), w)
    | None => (Raise (Sqlite3Error "unable to open database file"), w)
    end.

(** [CREATE TABLE IF NOT EXISTS passwords (...)] and commit. *)
Definition create_table_if_not_exists : M unit :=
  fun w =>
    match db_file w with
    | Some (Sqlite (Some rows)) => (Return tt, w)
    | Some (Sqlite None) => (Return tt, set_db_file (Some (Sqlite (Some []))) w)
    | Some NotADatabase => (Raise (Sqlite3Error "file is not a database"), w)
    | None => (Raise (Sqlite3Error "unable to open database file"), w)
    end.

(** [CURRENT_TIMESTAMP]. *)
Definition current_timestamp (w : World) : Z := Qfloor (clock w).

(* ================================================================== *)
(** ** What the program imports *)

(** The [Fernet] object built from a key. *)
Inductive Fernet : Type := mkFernet (key : bytes).

(** Command-line arguments, as [argparse] returns them. *)
Record Args : Type := mkArgs {
  args_generate : option str;
  args_copy : option str;
  args_list : bool;
  args_delete : option str;
  args_master_password : option str;
  args_clipboard_timeout : Z;
  args_length : Z;
  args_no_lowercase : bool;
  args_no_uppercase : bool;
  args_no_digits : bool;
  args_no_special : bool;
  args_timeout : Z
}.

(** The functions of [cryptography], [base64] and [secrets] the vault
    calls, and the collaborators of the command line that lie outside the
    vault core.
    - [PBKDF2HMAC_derive salt iterations key_material]: PBKDF2 with
      HMAC-SHA256 and [length=32].
    - [Fernet_encrypt key current_time iv data] is [Fernet(key).encrypt(data)]
      when the clock and [os.urandom(16)] give [current_time] and [iv];
      [Fernet_decrypt key token] is [None] where [decrypt] raises
      [InvalidToken].
    - [token_bytes cursor n]: the [n] bytes the entropy source gives at
      position [cursor].
    - [create_master_password]: the dialogue of [_get_master_password] for
      a new database (choose, check and confirm a password).
    - [generate_password] of [password_generator.py] and [copy_to_clipboard]
      of [clipboard.py]. *)
Record Externals : Type := mkExternals {
  PBKDF2HMAC_derive : bytes -> Z -> bytes -> bytes;
  urlsafe_b64encode : bytes -> bytes;
  Fernet_encrypt : bytes -> Z -> bytes -> bytes -> bytes;
  Fernet_decrypt : bytes -> bytes -> option bytes;
  token_bytes : nat -> nat -> bytes;
  create_master_password : M str;
  generate_password : Z -> bool -> bool -> bool -> bool -> M str;
  copy_to_clipboard : str -> Z -> M bool
}.

(** [Fernet] decrypts what it encrypted under the same key. *)
Definition Fernet_correct (X : Externals) : Prop :=
  forall key current_time iv data,
    Fernet_decrypt X key (Fernet_encrypt X key current_time iv data) = Some data.

(* ================================================================== *)
(** ** class PasswordDatabase *)

Record PasswordDatabase : Type := mkPasswordDatabase {
  master_password : option str;
  encryption_key : option Fernet
}.

Section Vault.

Variable X : Externals.

(** [secrets.token_bytes(n)] and [os.urandom(n)]. *)
Definition secrets_token_bytes (n : nat) : M bytes :=
  fun w => (Return (token_bytes X (rng w) n), set_rng (rng w + n)%nat w).

(** [f.encrypt(data)]. *)
Definition encrypt (f : Fernet) (data : bytes) : M bytes :=
  let (k) := f in
  now <- time_time ;;
  iv <- secrets_token_bytes 16 ;;
  ret (Fernet_encrypt X k (py_int now) iv data).

(** [f.decrypt(token)]. *)
Definition decrypt (f : Fernet) (token : bytes) : M bytes :=
  let (k) := f in
  match Fernet_decrypt X k token with
  | Some data => ret data
  | None => raise InvalidToken
  end.

(** Lines 106-113: the attempts record, with the default when [.attempts]
    is absent or unreadable. *)
Definition load_attempts : M AttemptsData :=
  gets (fun w => match attempts_file w with
                 | Some (AttemptsJson c t) => mkAttempts c t
                 | Some CorruptJson => mkAttempts 0 0
                 | None => mkAttempts 0 0
                 end).

(** [json.dump(attempts_data, f)] on [.attempts] opened for writing. *)
Definition dump_attempts (d : AttemptsData) : M unit :=
  modify (set_attempts_file (Some (AttemptsJson (count d) (last_attempt d)))).

Definition db_exists : M bool :=
  gets (fun w => match db_file w with Some _ => true | None => false end).
Definition attempts_exists : M bool :=
  gets (fun w => match attempts_file w with Some _ => true | None => false end).
Definition salt_exists : M bool :=
  gets (fun w => match salt_file w with Some _ => true | None => false end).

Definition _get_master_password : M str :=
  try_except
    (e <- db_exists ;;
     if negb e then
       create_master_password X
     else
       attempts_data <- load_attempts ;;
       current_time <- time_time ;;
       (if 3 <=? count attempts_data then
          let time_since_last := (current_time - last_attempt attempts_data)%Q in
          let delay_needed := py_max 0 (5 - time_since_last)%Q in
          if Qpositive delay_needed then
            print ("Too many failed attempts. Please wait "
                     ++ str_of_Z (py_int delay_needed) ++ " seconds...")%string ;;
            time_sleep delay_needed
          else ret tt
        else ret tt) ;;
       password <- getpass "Enter master password: " ;;
       dump_attempts (mkAttempts (count attempts_data + 1) current_time) ;;
       ret password)
    (fun e => if is_EOF_or_IOError e
              then Some (print "Error: Master password is required." ;;
                         print "Use --master-password option for non-interactive mode." ;;
                         sys_exit 1)
              else None).

Definition _derive_key (password : str) : M Fernet :=
  e <- salt_exists ;;
  salt <- (if negb e then
             salt <- secrets_token_bytes 16 ;;
             modify (set_salt_file (Some salt)) ;;
             modify (set_salt_mode o600) ;;
             ret salt
           else
             gets (fun w => match salt_file w with Some s => s | None => [] end)) ;;
  let key := urlsafe_b64encode X
               (PBKDF2HMAC_derive X salt 310000 (str_encode password)) in
  ret (mkFernet key).

Definition _init_db : M unit :=
  sqlite3_connect ;;
  create_table_if_not_exists ;;
  modify (set_db_mode o600) ;;
  modify (set_dir_mode o700).

(** The constructor. The directory of [db_path] is the one directory of
    the [World]; [db_path] selects nothing else. *)
Definition __init__ (db_path : option str) (master_password : option str)
  : M PasswordDatabase :=
  master_password <- match master_password with
                     | None => _get_master_password
                     | Some p => ret p
                     end ;;
  try_except
    (encryption_key <- _derive_key master_password ;;
     _init_db ;;
     e1 <- db_exists ;;
     e2 <- attempts_exists ;;
     (if e1 && e2 then
        now <- time_time ;;
        dump_attempts (mkAttempts 0 now)
      else ret tt) ;;
     ret (mkPasswordDatabase (Some master_password) (Some encryption_key)))
    (fun e => if is_Exception e
              then Some
                     (e2 <- attempts_exists ;;
                      (if e2 then
                         fun w => match attempts_file w with
                                  | Some (AttemptsJson c t) =>
                                      dump_attempts (mkAttempts (c + 1) t) w
                                  | _ => (Return tt, w)
                                  end
                       else ret tt) ;;
                      raise e)
              else None).

(** [self.encryption_key.<method>]: [AttributeError] when the attribute is
    [None]. *)
Definition encryption_key_method (self : PasswordDatabase) (method : str)
  : M Fernet :=
  match encryption_key self with
  | Some f => ret f
  | None => raise (AttributeError
                     ("'NoneType' object has no attribute '" ++ method ++ "'")%string)
  end.

Definition add_password (self : PasswordDatabase) (title password : str)
  : M bool :=
  f <- encryption_key_method self "encrypt" ;;
  token <- encrypt f (str_encode password) ;;
  let encrypted_password := bytes_decode token in
  sqlite3_connect ;;
  try_except
    (now <- gets current_timestamp ;;
     with_table (fun rows => (upsert title encrypted_password now rows, tt)) ;;
     ret true)
    (fun e => if is_sqlite3_Error e
              then Some (print ("Database error: " ++ exn_str e)%string ;; ret false)
              else None).

Definition get_password (self : PasswordDatabase) (title : str)
  : M (option str) :=
  sqlite3_connect ;;
  try_except
    (result <- query_table (select_password title) ;;
     match result with
     | Some encrypted_password =>
         f <- encryption_key_method self "decrypt" ;;
         data <- decrypt f (str_encode encrypted_password) ;;
         ret (Some (bytes_decode data))
     | None => ret None
     end)
    (fun e => if is_sqlite3_Error e
              then Some (print ("Database error: " ++ exn_str e)%string ;; ret None)
              else if is_Exception e
              then Some (print ("Decryption error: " ++ exn_str e)%string ;; ret None)
              else None).

Definition list_passwords (self : PasswordDatabase) : M (list str) :=
  sqlite3_connect ;;
  try_except
    (query_table select_titles)
    (fun e => if is_sqlite3_Error e
              then Some (print ("Database error: " ++ exn_str e)%string ;; ret [])
              else None).

Definition delete_password (self : PasswordDatabase) (title : str) : M bool :=
  sqlite3_connect ;;
  try_except
    (rowcount <- with_table (delete_rows title) ;;
     ret (0 <? rowcount))
    (fun e => if is_sqlite3_Error e
              then Some (print ("Database error: " ++ exn_str e)%string ;; ret false)
              else None).

End Vault.

(** The column value [add_password] stores for [password] under key [k]
    in world [w]: the token made with the clock and entropy of [w],
    decoded. *)
Definition sealed (X : Externals) (w : World) (k : bytes) (password : str)
  : str :=
  bytes_decode (Fernet_encrypt X k (py_int (clock w))
                  (token_bytes X (rng w) 16) (str_encode password)).

(** [derive(passphrase, salt)]: the key [_derive_key] computes from the
    password and the salt it found or made. *)
Definition derived_key (X : Externals) (password : str) (salt : bytes)
  : bytes :=
  urlsafe_b64encode X (PBKDF2HMAC_derive X salt 310000 (str_encode password)).

(** Lines 115-123 as a function: the delay [_get_master_password] sleeps
    for when it reads [a] at time [current_time], if it sleeps. *)
Definition throttle_delay (a : AttemptsData) (current_time : Q) : option Q :=
  if 3 <=? count a then
    let delay_needed := py_max 0 (5 - (current_time - last_attempt a))%Q in
    if Qpositive delay_needed then Some delay_needed else None
  else None.

(** The world once that delay, if any, has been announced and slept. *)
Definition after_throttle (a : AttemptsData) (w : World) : World :=
  match throttle_delay a (clock w) with
  | Some d =>
      emit (Sleep d)
        (set_clock (clock w + d)%Q
           (emit (Print ("Too many failed attempts. Please wait "
                           ++ str_of_Z (py_int d) ++ " seconds...")%string) w))
  | None => w
  end.

(** The record lines 106-113 read from [.attempts]. *)
Definition attempts_read (w : World) : AttemptsData :=
  match attempts_file w with
  | Some (AttemptsJson c t) => mkAttempts c t
  | _ => mkAttempts 0 0
  end.

(** The failed-attempt count the next prompted unlock will read. *)
Definition persisted_count (w : World) : Z :=
  match attempts_file w with
  | Some (AttemptsJson c _) => c
  | _ => 0
  end.

(** The timestamp persisted in [.attempts], when there is one. *)
Definition persisted_last_attempt (w : World) : option Q :=
  match attempts_file w with
  | Some (AttemptsJson _ t) => Some t
  | _ => None
  end.

(** The [UNIQUE] constraint on column [title], for the worlds whose
    database has the table. *)
Definition titles_unique (w : World) : Prop :=
  match db_file w with
  | Some (Sqlite (Some rows)) => NoDup (map title rows)
  | _ => True
  end.

(* ================================================================== *)
(** ** ezpass.py *)

(** [clear_session(db)], run by the session timer: it changes the object
    [db] it was given and then raises [SystemExit]; the result carries the
    object as the function leaves it. *)
Definition clear_session (db : option PasswordDatabase) (w : World)
  : Outcome unit * option PasswordDatabase * World :=
  let w1 := emit (Print (String "010"
              "Session timeout reached. Clearing sensitive data from memory.")) w in
  let db' := match db with
             | Some _ => Some (mkPasswordDatabase None None)
             | None => None
             end in
  (Raise (SystemExit 0), db', w1).

Section CommandLine.

Variable X : Externals.

(** The title check of the [generate], [copy] and [delete] branches;
    character 34 is the double quote, 39 the single quote, 92 the
    backslash. *)
Definition has_invalid_characters (title : str) : bool :=
  str_contains "039"%char title || str_contains "034"%char title
  || str_contains ";"%char title || str_contains "092"%char title.

(** [main()], from the parsed arguments on. The session timer started
    after the constructor runs in a thread of its own and is left out. *)
Definition main (args : Args) : M unit :=
  db <- try_except
          (__init__ X None (args_master_password args))
          (fun e => if is_Exception e
                    then Some (print ("Error initializing password database: "
                                        ++ exn_str e)%string ;;
                               sys_exit 1)
                    else None) ;;
  if negb (truthy (args_generate args) || truthy (args_copy args)
           || args_list args || truthy (args_delete args)) then
    modify (emit PrintHelp) ;;
    sys_exit 0
  else if truthy (args_generate args) then
    let title := match args_generate args with Some t => t | None => EmptyString end in
    if str_is_empty title then
      print "Error: Title cannot be empty" ;; sys_exit 1
    else if has_invalid_characters title then
      print "Error: Title contains invalid characters" ;; sys_exit 1
    else
      try_except
        (password <- generate_password X (args_length args)
                       (negb (args_no_lowercase args))
                       (negb (args_no_uppercase args))
                       (negb (args_no_digits args))
                       (negb (args_no_special args)) ;;
         stored <- add_password X db title password ;;
         if stored then
           print ("Generated and stored password for '" ++ title ++ "'")%string ;;
           copied <- copy_to_clipboard X password (args_clipboard_timeout args) ;;
           (if copied then
              if 0 <? args_clipboard_timeout args then
                print ("Password copied to clipboard (will clear in "
                         ++ str_of_Z (args_clipboard_timeout args)
                         ++ " seconds)")%string
              else print "Password copied to clipboard"
            else ret tt) ;;
           try_except
             (answer <- input "Show password? (y/n): " ;;
              if lower_is_y answer
              then print ("Password: " ++ password)%string
              else ret tt)
             (fun e => if is_EOF_or_IOError e
                       then Some (print ("Password: " ++ password)%string)
                       else None)
         else
           print ("Failed to store password for '" ++ title ++ "'")%string ;;
           sys_exit 1)
        (fun e => if is_Exception e
                  then Some (print ("Error generating password: "
                                      ++ exn_str e)%string ;;
                             sys_exit 1)
                  else None)
  else if truthy (args_copy args) then
    let title := match args_copy args with Some t => t | None => EmptyString end in
    if str_is_empty title then
      print "Error: Title cannot be empty" ;; sys_exit 1
    else if has_invalid_characters title then
      print "Error: Title contains invalid characters" ;; sys_exit 1
    else
      password <- get_password X db title ;;
      if truthy password then
        let password := match password with Some p => p | None => EmptyString end in
        copied <- copy_to_clipboard X password (args_clipboard_timeout args) ;;
        if copied then
          if 0 <? args_clipboard_timeout args then
            print ("Password for '" ++ title
                     ++ "' copied to clipboard (will clear in "
                     ++ str_of_Z (args_clipboard_timeout args)
                     ++ " seconds)")%string
          else print ("Password for '" ++ title ++ "' copied to clipboard")%string
        else
          print "Failed to copy to clipboard" ;; sys_exit 1
      else
        print ("No password found for '" ++ title ++ "'")%string ;; sys_exit 1
  else if args_list args then
    passwords <- list_passwords db ;;
    match passwords with
    | _ :: _ =>
        print "Stored passwords:" ;;
        fold_right (fun title k => print ("  - " ++ title)%string ;; k)
                   (ret tt) passwords
    | [] => print "No passwords stored yet"
    end
  else if truthy (args_delete args) then
    let title := match args_delete args with Some t => t | None => EmptyString end in
    if str_is_empty title then
      print "Error: Title cannot be empty" ;; sys_exit 1
    else if has_invalid_characters title then
      print "Error: Title contains invalid characters" ;; sys_exit 1
    else
      confirm <- input ("Are you sure you want to delete the password for '"
                          ++ title ++ "'? (y/n): ")%string ;;
      if lower_is_y confirm then
        deleted <- delete_password db title ;;
        if deleted then print ("Password for '" ++ title ++ "' deleted")%string
        else print ("No password found for '" ++ title ++ "'")%string ;; sys_exit 1
      else print "Deletion cancelled"
  else ret tt.

End CommandLine.

(* ================================================================== *)
(** ** A small instance of the imports

    Used to run the model on concrete inputs: the key is the password
    followed by the salt, a token is the key followed by the data, and
    decryption accepts exactly the tokens that start with the key. *)

Module Sample.

Fixpoint strip_prefix (k token : bytes) : option bytes :=
  match k, token with
  | [], _ => Some token
  | a :: k', b :: token' =>
      if Byte.eqb a b then strip_prefix k' token' else None
  | _ :: _, [] => None
  end.

Definition imports : Externals :=
  mkExternals
    (fun salt _ key_material => key_material ++ salt)
    (fun b => b)
    (fun key _ _ data => key ++ data)
    strip_prefix
    (fun cursor n => repeat x2a n)
    (getpass "Create master password: ")
    (fun _ _ _ _ _ => ret "Abcd1234!@#$wxyz")
    (fun _ _ => ret true).

(** A vault directory holding a database with one entry, [.salt] and a
    throttled [.attempts] written two seconds ago. *)
Definition world0 : World :=
  mkWorld (Some (Sqlite (Some [mkRow 1 "bank" "not-a-token" 900 900])))
          (Some (AttemptsJson 3 998))
          (Some [x73])
          o600 o700 o600
          1000 0
          [(1 # 2, "hunter2")%Q; (1, "y")%Q]
          [].

(** The object of an unlocked session and of one the timer has cleared. *)
Definition db0 : PasswordDatabase :=
  mkPasswordDatabase (Some "pw") (Some (mkFernet [x70; x77; x73])).
Definition closed_db : PasswordDatabase := mkPasswordDatabase None None.

End Sample.

(** Two worlds that differ at most in the database file, the entropy
    cursor and the trace. *)
Definition same_surroundings (w w' : World) : Prop :=
  attempts_file w' = attempts_file w
  /\ salt_file w' = salt_file w
  /\ db_mode w' = db_mode w
  /\ dir_mode w' = dir_mode w
  /\ salt_mode w' = salt_mode w
  /\ clock w' = clock w
  /\ tty w' = tty w.

(** The order of [ORDER BY title]. *)
Definition str_le (a b : str) : Prop := String.leb a b = true.

(* ================================================================== *)
(** ** Further sample worlds *)

Module Scenario.


(** The sample vault with a database file SQLite cannot read. *)
Definition unreadable : World :=
  set_db_file (Some NotADatabase) Sample.world0.

(** The sample vault with [.attempts] holding one failure, ten seconds
    old. *)
Definition calm : World :=
  set_attempts_file (Some (AttemptsJson 1 990)) Sample.world0.

(** The sample vault with nobody at the terminal. *)
Definition unattended : World := set_tty [] Sample.world0.

End Scenario.

(* ================================================================== *)
(** ** The dialogue for a new database

    Lines 76-101 of [_get_master_password], the computation a vault
    built with the real prompt has as its [create_master_password]. *)

(** [len(s)]: the code points of [s], that is, the bytes of its encoding
    that are not continuation bytes (10xxxxxx). *)
Fixpoint py_len (s : str) : Z :=
  match s with
  | EmptyString => 0
  | String c rest =>
      (if (Nat.div (nat_of_ascii c) 64 =? 2)%nat then 0 else 1) + py_len rest
  end.

Section NewVault.

(** [any(c.isupper() for c in s)] and the like; they rest on the Unicode
    character database. *)
Variable any_isupper : str -> bool.
Variable any_islower : str -> bool.
Variable any_isdigit : str -> bool.
Variable any_not_isalnum : str -> bool.

(** The [while True] loop. [fuel] bounds the iterations by the lines left
    at the terminal, of which each iteration reads at least one; with no
    line left an iteration is its first [getpass], which raises. *)
Fixpoint create_master_password_loop (fuel : nat) : M str :=
  match fuel with
  | O => getpass "Create master password: "
  | S fuel' =>
      password <- getpass "Create master password: " ;;
      if py_len password <? 12 then
        print "Password too short. Must be at least 12 characters." ;;
        create_master_password_loop fuel'
      else
        let has_upper := any_isupper password in
        let has_lower := any_islower password in
        let has_digit := any_isdigit password in
        let has_special := any_not_isalnum password in
        if negb (has_upper && has_lower && has_digit && has_special) then
          print "Password must contain uppercase, lowercase, digits, and special characters." ;;
          create_master_password_loop fuel'
        else
          confirm <- getpass "Confirm master password: " ;;
          if String.eqb password confirm then ret password
          else
            print "Passwords do not match. Please try again." ;;
            create_master_password_loop fuel'
  end.

Definition create_master_password_dialogue : M str :=
  print "Creating a new password database. Master password requirements:" ;;
  print "- At least 12 characters long" ;;
  print "- Must contain uppercase, lowercase, digits, and special characters" ;;
  fun w => create_master_password_loop (List.length (tty w)) w.

(** The strength policy of the dialogue. *)
Definition meets_policy (password : str) : Prop :=
  12 <= py_len password
  /\ any_isupper password = true /\ any_islower password = true
  /\ any_isdigit password = true /\ any_not_isalnum password = true.

End NewVault.

(** A sample for the dialogue: character classes read off ASCII only,
    and a terminal at which a short password, then a good one and its
    confirmation are typed. *)
Module NewVaultSample.

Definition any_in_range (lo hi : nat) (s : str) : bool :=
  existsb (fun c => (lo <=? nat_of_ascii c)%nat && (nat_of_ascii c <=? hi)%nat)
          (list_ascii_of_string s).

Definition any_isupper : str -> bool := any_in_range 65 90.
Definition any_islower : str -> bool := any_in_range 97 122.
Definition any_isdigit : str -> bool := any_in_range 48 57.
Definition any_not_isalnum (s : str) : bool :=
  existsb (fun c =>
             negb (((65 <=? nat_of_ascii c)%nat && (nat_of_ascii c <=? 90)%nat)
                   || ((97 <=? nat_of_ascii c)%nat && (nat_of_ascii c <=? 122)%nat)
                   || ((48 <=? nat_of_ascii c)%nat && (nat_of_ascii c <=? 57)%nat)))
          (list_ascii_of_string s).

Definition imports : Externals :=
  mkExternals
    (PBKDF2HMAC_derive Sample.imports)
    (urlsafe_b64encode Sample.imports)
    (Fernet_encrypt Sample.imports)
    (Fernet_decrypt Sample.imports)
    (token_bytes Sample.imports)
    (create_master_password_dialogue any_isupper any_islower any_isdigit
       any_not_isalnum)
    (generate_password Sample.imports)
    (copy_to_clipboard Sample.imports).

Definition world : World :=
  mkWorld None None None 0 0 0 1000 0
          [(1, "hunter2")%Q; (2, "Str0ng!Passw0rd123")%Q;
           (1, "Str0ng!Passw0rd123")%Q]
          [].

End NewVaultSample.

(* ================================================================== *)
(** ** password_generator.py *)

Module password_generator.

(** [string.ascii_lowercase], [string.ascii_uppercase], [string.digits]
    and [string.punctuation]; characters 34 and 92 are the double quote
    and the backslash. *)
Definition ascii_lowercase : str := "abcdefghijklmnopqrstuvwxyz".
Definition ascii_uppercase : str := "ABCDEFGHIJKLMNOPQRSTUVWXYZ".
Definition digits : str := "0123456789".
Definition punctuation : str :=
  ("!" ++ String "034" ("#$%&'()*+,-./:;<=>?@["
                          ++ String "092" "]^_`{|}~"))%string.

Inductive Raised : Type :=
| RaisedValueError (msg : str)
| RaisedIndexError (msg : str).

(** A computation that draws random numbers: from the position of the
    next draw to a result, or an exception, and the position after. *)
Definition G (A : Type) : Type := nat -> (A + Raised) * nat.

Definition gret {A} (a : A) : G A := fun n => (inl a, n).
Definition graise {A} (e : Raised) : G A := fun n => (inr e, n).
Definition gbind {A B} (c : G A) (k : A -> G B) : G B :=
  fun n =>
    match c n with
    | (inl a, n') => k a n'
    | (inr e, n') => (inr e, n')
    end.

Section Generator.

(** [entropy i]: the raw number behind the [i]-th draw.
    [shuffle i l]: the list [random.shuffle] leaves in place of [l] when
    it starts at draw [i]. *)
Variable entropy : nat -> nat.
Variable shuffle : nat -> list ascii -> list ascii.

(** [secrets.choice(seq)]. *)
Definition choice (seq : str) : G ascii :=
  fun n =>
    match list_ascii_of_string seq with
    | [] => (inr (RaisedIndexError "Cannot choose from an empty sequence"), n)
    | c :: rest =>
        (inl (nth (entropy n mod List.length (c :: rest)) (c :: rest) c), S n)
    end.

(** [[secrets.choice(seq) for _ in range(n)]]. *)
Fixpoint choices (n : nat) (seq : str) : G (list ascii) :=
  match n with
  | O => gret []
  | S n' =>
      gbind (choice seq) (fun c =>
      gbind (choices n' seq) (fun cs => gret (c :: cs)))
  end.

Definition generate_password
  (length : Z) (use_lowercase use_uppercase use_digits use_special : bool)
  : G str :=
  let chars := EmptyString in
  let chars := if use_lowercase then (chars ++ ascii_lowercase)%string else chars in
  let chars := if use_uppercase then (chars ++ ascii_uppercase)%string else chars in
  let chars := if use_digits then (chars ++ digits)%string else chars in
  let chars := if use_special then (chars ++ punctuation)%string else chars in
  if str_is_empty chars then
    graise (RaisedValueError "At least one character set must be selected")
  else
    let password := [] in
    gbind (if use_lowercase
           then gbind (choice ascii_lowercase) (fun c => gret (password ++ [c]))
           else gret password) (fun password =>
    gbind (if use_uppercase
           then gbind (choice ascii_uppercase) (fun c => gret (password ++ [c]))
           else gret password) (fun password =>
    gbind (if use_digits
           then gbind (choice digits) (fun c => gret (password ++ [c]))
           else gret password) (fun password =>
    gbind (if use_special
           then gbind (choice punctuation) (fun c => gret (password ++ [c]))
           else gret password) (fun password =>
    let remaining_length := length - Z.of_nat (List.length password) in
    gbind (choices (Z.to_nat remaining_length) chars) (fun more =>
    let password := password ++ more in
    fun n => (inl (string_of_list_ascii (shuffle n password)), n)))))).

End Generator.

(** The character sets selected by the four flags, in the order of the
    code. *)
Definition selected (use_lowercase use_uppercase use_digits use_special : bool)
  : list str :=
  (if use_lowercase then [ascii_lowercase] else [])
    ++ (if use_uppercase then [ascii_uppercase] else [])
    ++ (if use_digits then [digits] else [])
    ++ (if use_special then [punctuation] else []).

(** [c in seq]. *)
Definition char_in (c : ascii) (seq : str) : Prop :=
  In c (list_ascii_of_string seq).

(** The same computation arranged by the list of selected sets: one
    choice from each set, then choices from their concatenation, then the
    shuffle. *)
Fixpoint choose_each (entropy : nat -> nat) (sets : list str)
  : G (list ascii) :=
  match sets with
  | [] => gret []
  | seq :: sets' =>
      gbind (choice entropy seq) (fun c =>
      gbind (choose_each entropy sets') (fun cs => gret (c :: cs)))
  end.

Definition generate_from
  (entropy : nat -> nat) (shuffle : nat -> list ascii -> list ascii)
  (sets : list str) (length : Z) : G str :=
  gbind (choose_each entropy sets) (fun password =>
  gbind (choices entropy
           (Z.to_nat (length - Z.of_nat (List.length password)))
           (fold_right String.append EmptyString sets)) (fun more =>
  fun n => (inl (string_of_list_ascii (shuffle n (password ++ more))), n))).

End password_generator.

(* ================================================================== *)
(** ** clipboard.py *)

Module clipboard.

(** What [subprocess.Popen(argv, stdin=PIPE)] followed by
    [communicate(input)] comes to: the program is not installed, another
    exception, or the program ran and exited. *)
Inductive PopenResult : Type :=
| FileNotFoundError (msg : str)
| OtherException (msg : str)
| Exited (returncode : Z).

Inductive Action : Type :=
| Run (argv : list str) (input : bytes)
| Printed (s : str)
| StartClearThread (clear_after : Z).

(** How the [try] block is left. *)
Inductive Flow : Type :=
| Returned (b : bool)
| Raised (msg : str)
| FellThrough.

Section Clipboard.

(** [platform.system()] and the behaviour of the installed programs. *)
Variable platform_system : str.
Variable Popen_communicate : list str -> bytes -> PopenResult.

(** One [Popen ... communicate ... return process.returncode == 0], with
    [on_missing] as the handler of [FileNotFoundError], if the call is
    inside one. *)
Definition run_tool (argv : list str) (text : str)
  (on_missing : option (Flow * list Action)) : Flow * list Action :=
  let input := str_encode text in
  match Popen_communicate argv input with
  | Exited returncode => (Returned (returncode =? 0), [Run argv input])
  | OtherException msg => (Raised msg, [Run argv input])
  | FileNotFoundError msg =>
      match on_missing with
      | Some (flow, actions) => (flow, Run argv input :: actions)
      | None => (Raised msg, [Run argv input])
      end
  end.

(** The body of the [try] block. *)
Definition try_block (text : str) : Flow * list Action :=
  let system := platform_system in
  if String.eqb system "Linux" then
    run_tool ["xclip"; "-selection"; "clipboard"] text
      (Some
         (run_tool ["xsel"; "--clipboard"; "--input"] text
            (Some
               (Returned false,
                [Printed "Error: xclip or xsel is required for clipboard functionality.";
                 Printed "Install with: sudo apt-get install xclip or sudo apt-get install xsel"]))))
  else if String.eqb system "Darwin" then
    run_tool ["pbcopy"] text None
  else if String.eqb system "Windows" then
    run_tool ["clip"] text None
  else
    (Returned false,
     [Printed ("Clipboard functionality not supported on " ++ system)%string]).

Definition copy_to_clipboard (text : str) (clear_after : Z)
  : bool * list Action :=
  match try_block text with
  | (Returned b, actions) => (b, actions)
  | (Raised msg, actions) =>
      (false,
       actions ++ [Printed ("Error copying to clipboard: " ++ msg)%string])
  | (FellThrough, actions) =>
      (true,
       actions ++ (if 0 <? clear_after then [StartClearThread clear_after]
                   else []))
  end.

End Clipboard.

End clipboard.

(* ================================================================== *)
(** * Properties *)

(** Closing a goal made of conjunctions and existentials over runs on
    concrete inputs. *)
Ltac run_all :=
  repeat match goal with
         | |- _ /\ _ => split
         | |- exists _, _ => eexists
         end;
  lazy; reflexivity.

(** ** The table *)

Lemma set_db_file_same (w : World) : set_db_file (db_file w) w = w.
Proof. destruct w; reflexivity. Qed.

Lemma find_none_existsb (t : str) (rows : list Row) :
  existsb (has_title t) rows = false -> find (has_title t) rows = None.
Proof.
  induction rows as [|r rows IH]; simpl; [reflexivity|].
  destruct (has_title t r); simpl; [discriminate | exact IH].
Qed.

Lemma existsb_has_title_In (t : str) (rows : list Row) :
  existsb (has_title t) rows = true <-> In t (map title rows).
Proof.
  rewrite existsb_exists, in_map_iff. unfold has_title.
  split; intros [r [H1 H2]]; exists r.
  - apply String.eqb_eq in H2. tauto.
  - rewrite H1, String.eqb_refl. tauto.
Qed.

Lemma find_app_new (t : str) (rows : list Row) (r0 : Row) :
  has_title t r0 = true ->
  find (has_title t) (rows ++ [r0])
  = match find (has_title t) rows with Some r => Some r | None => Some r0 end.
Proof.
  intros H0. induction rows as [|r rows IH]; simpl.
  - rewrite H0. reflexivity.
  - destruct (has_title t r); [reflexivity | exact IH].
Qed.

Lemma select_password_upsert (t p : str) (now : Z) (rows : list Row) :
  select_password t (upsert t p now rows) = Some p.
Proof.
  unfold select_password, upsert.
  destruct (existsb (has_title t) rows) eqn:E.
  - induction rows as [|r rows IH]; simpl in *; [discriminate|].
    destruct (has_title t r) eqn:Er; simpl.
    + unfold has_title in *. simpl. rewrite Er. reflexivity.
    + rewrite Er. apply IH. exact E.
  - rewrite (find_app_new t), (find_none_existsb t rows E); [reflexivity|].
    unfold has_title. simpl. apply String.eqb_refl.
Qed.

Lemma titles_upsert (t p : str) (now : Z) (rows : list Row) :
  map title (upsert t p now rows)
  = if existsb (has_title t) rows then map title rows
    else map title rows ++ [t].
Proof.
  unfold upsert. destruct (existsb (has_title t) rows).
  - rewrite map_map. apply map_ext. intros r.
    destruct (has_title t r); reflexivity.
  - rewrite map_app. reflexivity.
Qed.

Lemma upsert_In (t p : str) (now : Z) (rows : list Row) :
  In t (map title (upsert t p now rows)).
Proof.
  rewrite titles_upsert. destruct (existsb (has_title t) rows) eqn:E.
  - apply existsb_has_title_In. exact E.
  - apply in_or_app. right. left. reflexivity.
Qed.

Lemma upsert_NoDup (t p : str) (now : Z) (rows : list Row) :
  NoDup (map title rows) -> NoDup (map title (upsert t p now rows)).
Proof.
  intros H. rewrite titles_upsert.
  destruct (existsb (has_title t) rows) eqn:E; [exact H|].
  apply NoDup_app; [exact H | repeat constructor; intros [] | ].
  intros x Hx [Hx'|[]]. subst x.
  apply existsb_has_title_In in Hx. congruence.
Qed.

Lemma insert_sorted_perm (s : str) (l : list str) :
  Permutation (insert_sorted s l) (s :: l).
Proof.
  induction l as [|x l IH]; simpl; [reflexivity|].
  destruct (String.leb s x); [reflexivity|].
  rewrite IH. apply perm_swap.
Qed.

Lemma order_by_perm (l : list str) : Permutation (order_by l) l.
Proof.
  induction l as [|x l IH]; simpl; [reflexivity|].
  rewrite insert_sorted_perm. constructor. exact IH.
Qed.

Lemma filter_none_id (t : str) (rows : list Row) :
  existsb (has_title t) rows = false ->
  filter (fun r => negb (has_title t r)) rows = rows.
Proof.
  induction rows as [|r rows IH]; simpl; [reflexivity|].
  destruct (has_title t r); simpl; [discriminate|].
  intros H. rewrite IH by exact H. reflexivity.
Qed.

Lemma rowcount_positive (t : str) (rows : list Row) :
  (0 <? Z.of_nat (List.length (filter (has_title t) rows)))
  = existsb (has_title t) rows.
Proof.
  induction rows as [|r rows IH]; simpl; [reflexivity|].
  destruct (has_title t r); simpl; [|exact IH].
  apply Z.ltb_lt. lia.
Qed.

Lemma delete_rows_NoDup (t : str) (rows : list Row) :
  NoDup (map title rows) -> NoDup (map title (fst (delete_rows t rows))).
Proof.
  simpl. induction rows as [|r rows IH]; simpl; intros H; [constructor|].
  inversion H as [|x l Hn Hd]; subst.
  destruct (has_title t r); simpl; [apply IH; exact Hd|].
  constructor; [|apply IH; exact Hd].
  intros Hin. apply Hn. apply in_map_iff in Hin.
  destruct Hin as [r' [E Hr']]. apply filter_In in Hr'.
  apply in_map_iff. exists r'. tauto.
Qed.

Lemma delete_rows_gone (t : str) (rows : list Row) :
  existsb (has_title t) (fst (delete_rows t rows)) = false.
Proof.
  simpl. induction rows as [|r rows IH]; simpl; [reflexivity|].
  destruct (has_title t r) eqn:E; simpl; [exact IH|].
  rewrite E. exact IH.
Qed.

(** ** Runs of the four operations on a database that has its table *)

Section Runs.

Variable X : Externals.
Variable self : PasswordDatabase.
Variable w : World.
Variable rows : list Row.
Hypothesis Hdb : db_file w = Some (Sqlite (Some rows)).

Lemma add_password_run (k : bytes) (t p : str) :
  encryption_key self = Some (mkFernet k) ->
  add_password X self t p w
  = (Return true,
     set_db_file
       (Some (Sqlite (Some (upsert t (sealed X w k p) (current_timestamp w) rows))))
       (set_rng (rng w + 16)%nat w)).
Proof.
  intros Hk.
  unfold add_password, encryption_key_method, encrypt, secrets_token_bytes,
    sqlite3_connect, with_table, try_except, bind, ret, gets, modify,
    time_time, sealed.
  rewrite Hk. simpl. rewrite Hdb. simpl. rewrite Hdb. reflexivity.
Qed.

Lemma get_password_run (t : str) :
  get_password X self t w
  = match select_password t rows with
    | None => (Return None, w)
    | Some c =>
        match encryption_key self with
        | None =>
            (Return None,
             emit (Print "Decryption error: 'NoneType' object has no attribute 'decrypt'") w)
        | Some (mkFernet k) =>
            match Fernet_decrypt X k (str_encode c) with
            | Some data => (Return (Some (bytes_decode data)), w)
            | None => (Return None, emit (Print "Decryption error: ") w)
            end
        end
    end.
Proof.
  unfold get_password, encryption_key_method, decrypt, sqlite3_connect,
    query_table, try_except, bind, ret, raise, gets, modify, print.
  rewrite Hdb. simpl. rewrite Hdb.
  destruct (select_password t rows) as [c|]; [|reflexivity].
  destruct (encryption_key self) as [[k]|]; [|reflexivity].
  simpl. destruct (Fernet_decrypt X k (str_encode c)); reflexivity.
Qed.

Lemma list_passwords_run :
  list_passwords self w = (Return (select_titles rows), w).
Proof.
  unfold list_passwords, sqlite3_connect, query_table, try_except, bind, modify.
  rewrite Hdb. simpl. rewrite Hdb. reflexivity.
Qed.

Lemma delete_password_run (t : str) :
  delete_password self t w
  = (Return (existsb (has_title t) rows),
     set_db_file (Some (Sqlite (Some (fst (delete_rows t rows))))) w).
Proof.
  unfold delete_password, sqlite3_connect, with_table, try_except, bind, ret,
    modify.
  rewrite Hdb. simpl. rewrite Hdb. simpl.
  rewrite rowcount_positive. reflexivity.
Qed.

End Runs.

(** ** The sample imports *)

Lemma strip_prefix_app (k data : bytes) :
  Sample.strip_prefix k (k ++ data) = Some data.
Proof.
  induction k as [|a k IH]; simpl; [reflexivity|].
  rewrite (Byte.byte_dec_lb (eq_refl a)). exact IH.
Qed.

Lemma sample_imports_correct : Fernet_correct Sample.imports.
Proof. intros key current_time iv data. apply strip_prefix_app. Qed.

(** ** Round trip *)

Lemma open_sealed (X : Externals) (w : World) (k : bytes) (P : str) :
  Fernet_correct X ->
  Fernet_decrypt X k (str_encode (sealed X w k P)) = Some (str_encode P).
Proof.
  intros HX. unfold sealed, str_encode, bytes_decode.
  rewrite list_byte_of_string_of_list_byte. apply HX.
Qed.

Lemma decode_encode (P : str) : bytes_decode (str_encode P) = P.
Proof. apply string_of_list_byte_of_string. Qed.

(** C1. On an unlocked vault (the object holds a key, the database has its
    table), with a [Fernet] that decrypts what it encrypted: the token made
    from [P] under the key decrypts under the same key to the encoding of
    [P]; and [add_password title P] succeeds and a following
    [get_password title] returns exactly [P]. *)
Theorem add_then_get_round_trip
  (X : Externals) (self : PasswordDatabase) (k : bytes) (rows : list Row)
  (w : World) (t P : str) :
  Fernet_correct X ->
  encryption_key self = Some (mkFernet k) ->
  db_file w = Some (Sqlite (Some rows)) ->
  (exists token w',
      encrypt X (mkFernet k) (str_encode P) w = (Return token, w')
      /\ decrypt X (mkFernet k) token w' = (Return (str_encode P), w'))
  /\ (exists w1,
         add_password X self t P w = (Return true, w1)
         /\ get_password X self t w1 = (Return (Some P), w1)).
Proof.
  intros HX Hk Hdb. split.
  - eexists. eexists. split; [reflexivity|].
    unfold decrypt, ret. rewrite HX. reflexivity.
  - rewrite (add_password_run X self w rows Hdb k t P Hk).
    eexists. split; [reflexivity|].
    erewrite get_password_run by reflexivity.
    rewrite select_password_upsert, Hk, open_sealed by exact HX.
    rewrite decode_encode. reflexivity.
Qed.

Lemma add_then_get_round_trip_witness :
  (exists token w',
      encrypt Sample.imports (mkFernet [x70; x77; x73]) (str_encode "hunter2")
        Sample.world0 = (Return token, w')
      /\ decrypt Sample.imports (mkFernet [x70; x77; x73]) token w'
         = (Return (str_encode "hunter2"), w'))
  /\ (exists w1,
         add_password Sample.imports Sample.db0 "email" "hunter2" Sample.world0
         = (Return true, w1)
         /\ get_password Sample.imports Sample.db0 "email" w1
            = (Return (Some "hunter2"), w1)).
Proof.
  apply (add_then_get_round_trip Sample.imports Sample.db0 [x70; x77; x73]
           [mkRow 1 "bank" "not-a-token" 900 900] Sample.world0
           "email" "hunter2").
  - exact sample_imports_correct.
  - reflexivity.
  - reflexivity.
Defined.

(** ** Upsert and uniqueness of titles *)

Lemma select_titles_count (x : str) (rows : list Row) :
  NoDup (map title rows) -> In x (map title rows) ->
  count_occ string_dec (select_titles rows) x = 1%nat.
Proof.
  intros Hnd Hin. unfold select_titles.
  apply NoDup_count_occ'.
  - apply (Permutation_NoDup (Permutation_sym (order_by_perm _))). exact Hnd.
  - apply (Permutation_in _ (Permutation_sym (order_by_perm _))). exact Hin.
Qed.

(** C7. On an unlocked vault whose table satisfies the [UNIQUE] constraint,
    with a [Fernet] that decrypts what it encrypted: [add_password x A] and
    then [add_password x B] both succeed, [get_password x] then returns
    [B], and [list_passwords] holds [x] exactly once; and each of the four
    operations leaves a table whose titles are unique. *)
Theorem add_twice_overwrites
  (X : Externals) (self : PasswordDatabase) (k : bytes) (rows : list Row)
  (w : World) (x A B : str) :
  Fernet_correct X ->
  encryption_key self = Some (mkFernet k) ->
  db_file w = Some (Sqlite (Some rows)) ->
  titles_unique w ->
  (exists w1 w2 l,
      add_password X self x A w = (Return true, w1)
      /\ add_password X self x B w1 = (Return true, w2)
      /\ get_password X self x w2 = (Return (Some B), w2)
      /\ list_passwords self w2 = (Return l, w2)
      /\ count_occ string_dec l x = 1%nat)
  /\ (forall t p, titles_unique (snd (add_password X self t p w)))
  /\ (forall t, titles_unique (snd (get_password X self t w)))
  /\ titles_unique (snd (list_passwords self w))
  /\ (forall t, titles_unique (snd (delete_password self t w))).
Proof.
  intros HX Hk Hdb Hu.
  assert (Hnd : NoDup (map title rows)).
  { unfold titles_unique in Hu. rewrite Hdb in Hu. exact Hu. }
  split; [|split; [|split; [|split]]].
  - rewrite (add_password_run X self w rows Hdb k x A Hk).
    eexists. eexists. eexists. split; [reflexivity|].
    erewrite add_password_run by (reflexivity || exact Hk).
    split; [reflexivity|].
    erewrite get_password_run by reflexivity.
    rewrite select_password_upsert, Hk, open_sealed by exact HX.
    rewrite decode_encode. split; [reflexivity|].
    erewrite list_passwords_run by reflexivity.
    split; [reflexivity|].
    apply select_titles_count.
    + apply upsert_NoDup, upsert_NoDup. exact Hnd.
    + apply upsert_In.
  - intros t p. rewrite (add_password_run X self w rows Hdb k t p Hk).
    unfold titles_unique. simpl. apply upsert_NoDup. exact Hnd.
  - intros t. rewrite (get_password_run X self w rows Hdb t).
    destruct (select_password t rows) as [c|]; [|exact Hu].
    rewrite Hk. destruct (Fernet_decrypt X k (str_encode c)); exact Hu.
  - rewrite (list_passwords_run self w rows Hdb). exact Hu.
  - intros t. rewrite (delete_password_run self w rows Hdb t).
    unfold titles_unique. simpl snd. simpl db_file.
    apply delete_rows_NoDup. exact Hnd.
Qed.

Lemma add_twice_overwrites_witness :
  exists w1 w2 l,
    add_password Sample.imports Sample.db0 "bank" "first" Sample.world0
    = (Return true, w1)
    /\ add_password Sample.imports Sample.db0 "bank" "second" w1
       = (Return true, w2)
    /\ get_password Sample.imports Sample.db0 "bank" w2
       = (Return (Some "second"), w2)
    /\ list_passwords Sample.db0 w2 = (Return l, w2)
    /\ count_occ string_dec l "bank" = 1%nat.
Proof.
  apply (add_twice_overwrites Sample.imports Sample.db0 [x70; x77; x73]
           [mkRow 1 "bank" "not-a-token" 900 900] Sample.world0
           "bank" "first" "second").
  - exact sample_imports_correct.
  - reflexivity.
  - reflexivity.
  - simpl. repeat constructor. intros [].
Defined.

(** ** Deletion *)

(** C9. On a database that has its table: [delete_password title] returns
    [False] and changes nothing when no row has the title; when a row has
    it, the call returns [True] and leaves exactly the rows with another
    title. The result is whether a row existed and was removed. *)
Theorem delete_password_result
  (self : PasswordDatabase) (rows : list Row) (w : World) (t : str) :
  db_file w = Some (Sqlite (Some rows)) ->
  (~ In t (map title rows) -> delete_password self t w = (Return false, w))
  /\ (In t (map title rows) ->
      exists w' rows',
        delete_password self t w = (Return true, w')
        /\ db_file w' = Some (Sqlite (Some rows'))
        /\ ~ In t (map title rows')
        /\ (forall r, In r rows' <-> In r rows /\ title r <> t)).
Proof.
  intros Hdb. rewrite (delete_password_run self w rows Hdb t). split.
  - intros Hn.
    assert (E : existsb (has_title t) rows = false).
    { destruct (existsb (has_title t) rows) eqn:E; [|reflexivity].
      apply existsb_has_title_In in E. contradiction. }
    rewrite E. simpl. rewrite (filter_none_id t rows E), <- Hdb.
    rewrite set_db_file_same. reflexivity.
  - intros Hin. apply existsb_has_title_In in Hin. rewrite Hin.
    eexists. eexists. split; [reflexivity|]. split; [reflexivity|]. split.
    + intros Hin'. apply existsb_has_title_In in Hin'.
      rewrite delete_rows_gone in Hin'. discriminate.
    + intros r. simpl. rewrite filter_In. unfold has_title.
      destruct (String.eqb_spec (title r) t); simpl; intuition congruence.
Qed.

Lemma delete_password_result_witness :
  (~ In "bank" (map title [mkRow 1 "bank" "not-a-token" 900 900]) ->
   delete_password Sample.db0 "bank" Sample.world0
   = (Return false, Sample.world0))
  /\ (In "bank" (map title [mkRow 1 "bank" "not-a-token" 900 900]) ->
      exists w' rows',
        delete_password Sample.db0 "bank" Sample.world0 = (Return true, w')
        /\ db_file w' = Some (Sqlite (Some rows'))
        /\ ~ In "bank" (map title rows')
        /\ (forall r, In r rows' <->
                      In r [mkRow 1 "bank" "not-a-token" 900 900]
                      /\ title r <> "bank")).
Proof.
  apply (delete_password_result Sample.db0
           [mkRow 1 "bank" "not-a-token" 900 900] Sample.world0 "bank").
  reflexivity.
Defined.

(** ** Unlocking *)

Lemma init_prompted (X : Externals) (path : option str) (w : World) :
  __init__ X path None w
  = bind (_get_master_password X) (fun p => __init__ X path (Some p)) w.
Proof. reflexivity. Qed.

Lemma persisted_count_load (w : World) :
  exists t, load_attempts w = (Return (mkAttempts (persisted_count w) t), w).
Proof.
  unfold load_attempts, gets, persisted_count.
  destruct (attempts_file w) as [[c t|]|]; eexists; reflexivity.
Qed.

(** The constructor on an existing database, password given. *)
Lemma init_supplied_run
  (X : Externals) (path : option str) (pw : str) (w : World)
  (t : option (list Row)) :
  db_file w = Some (Sqlite t) ->
  exists salt w',
    __init__ X path (Some pw) w
    = (Return (mkPasswordDatabase (Some pw)
                 (Some (mkFernet (derived_key X pw salt)))), w')
    /\ salt_file w' = Some salt
    /\ (forall s, salt_file w = Some s -> salt = s)
    /\ db_file w' = Some (Sqlite (Some (match t with Some r => r | None => [] end)))
    /\ attempts_file w'
       = match attempts_file w with
         | Some _ => Some (AttemptsJson 0 (clock w))
         | None => None
         end
    /\ clock w' = clock w /\ events w' = events w /\ tty w' = tty w
    /\ (forall pw2, snd (__init__ X path (Some pw2) w) = w').
Proof.
  intros Hdb. destruct w as [d a s m1 m2 m3 c r ty ev]. simpl in Hdb. subst d.
  destruct s as [s|], a as [a|], t as [rows|];
    (eexists; eexists; split; [reflexivity|]);
    simpl; repeat split; try reflexivity; intros; congruence.
Qed.

(** The prompt on an existing database, a line being typed. *)
Lemma get_master_password_run
  (X : Externals) (w : World) (d : DbFile) (wait : Q) (pw : str)
  (rest : list (Q * str)) :
  db_file w = Some d ->
  tty w = (wait, pw) :: rest ->
  _get_master_password X w
  = (Return pw,
     let wd := after_throttle (attempts_read w) w in
     set_attempts_file
       (Some (AttemptsJson (count (attempts_read w) + 1) (clock w)))
       (set_tty rest
          (set_clock (clock wd + wait)%Q
             (emit (GetPass "Enter master password: ") wd)))).
Proof.
  intros Hdb Htty. destruct w as [d0 a s m1 m2 m3 c r ty ev].
  simpl in Hdb, Htty. subst d0 ty.
  unfold _get_master_password, after_throttle, throttle_delay, attempts_read,
    try_except, bind, db_exists, load_attempts, gets, time_time.
  simpl.
  destruct a as [[n l|]|]; simpl.
  - destruct (3 <=? n); [|reflexivity].
    destruct (Qpositive (py_max 0 (5 - (c - l)))); reflexivity.
  - reflexivity.
  - reflexivity.
Qed.

Lemma after_throttle_frame (a : AttemptsData) (w : World) :
  db_file (after_throttle a w) = db_file w
  /\ attempts_file (after_throttle a w) = attempts_file w
  /\ salt_file (after_throttle a w) = salt_file w
  /\ tty (after_throttle a w) = tty w.
Proof.
  unfold after_throttle. destruct (throttle_delay a (clock w)); simpl; tauto.
Qed.

(** The whole constructor on an existing database when it prompts. *)
Lemma init_prompted_run
  (X : Externals) (path : option str) (w : World) (t : option (list Row))
  (wait : Q) (pw : str) (rest : list (Q * str)) :
  db_file w = Some (Sqlite t) ->
  tty w = (wait, pw) :: rest ->
  exists salt w',
    __init__ X path None w
    = (Return (mkPasswordDatabase (Some pw)
                 (Some (mkFernet (derived_key X pw salt)))), w')
    /\ salt_file w' = Some salt
    /\ db_file w' = Some (Sqlite (Some (match t with Some r => r | None => [] end)))
    /\ attempts_file w' = Some (AttemptsJson 0 (clock w'))
    /\ clock w' = (clock (after_throttle (attempts_read w) w) + wait)%Q
    /\ events w'
       = events (after_throttle (attempts_read w) w)
           ++ [GetPass "Enter master password: "]
    /\ tty w' = rest.
Proof.
  intros Hdb Htty. rewrite init_prompted. unfold bind at 1.
  rewrite (get_master_password_run X w (Sqlite t) wait pw rest Hdb Htty).
  cbv zeta.
  destruct (after_throttle_frame (attempts_read w) w) as [F1 [F2 [F3 F4]]].
  match goal with
  | |- context [__init__ X path (Some pw) ?w1] =>
      destruct (init_supplied_run X path pw w1 t) as
        [salt [w' [E [Hs [_ [Hd [Ha [Hc [He [Ht _]]]]]]]]]];
      [simpl; rewrite F1; exact Hdb|]
  end.
  exists salt, w'. rewrite E. split; [reflexivity|].
  simpl in Ha, Hc, He, Ht. rewrite Hc.
  repeat split; assumption.
Qed.

(** The constructor on a database file SQLite cannot read, password given. *)
Lemma init_supplied_fails
  (X : Externals) (path : option str) (pw : str) (w : World) :
  db_file w = Some NotADatabase ->
  exists w',
    __init__ X path (Some pw) w
    = (Raise (Sqlite3Error "file is not a database"), w')
    /\ attempts_file w'
       = match attempts_file w with
         | Some (AttemptsJson c t) => Some (AttemptsJson (c + 1) t)
         | other => other
         end
    /\ clock w' = clock w /\ events w' = events w.
Proof.
  intros Hdb. destruct w as [d a s m1 m2 m3 c r ty ev]. simpl in Hdb. subst d.
  destruct s as [s|], a as [[n l|]|];
    (eexists; split; [reflexivity|]); simpl; repeat split; reflexivity.
Qed.

(** The prompt when no line can be read. *)
Lemma get_master_password_eof (X : Externals) (w : World) (d : DbFile) :
  db_file w = Some d ->
  tty w = [] ->
  exists w', _get_master_password X w = (Raise (SystemExit 1), w').
Proof.
  intros Hdb Htty. destruct w as [d0 a s m1 m2 m3 c r ty ev].
  simpl in Hdb, Htty. subst d0 ty.
  unfold _get_master_password, try_except, bind, db_exists, load_attempts,
    gets, time_time.
  simpl.
  destruct a as [[n l|]|]; simpl.
  - destruct (3 <=? n); [|eexists; reflexivity].
    destruct (Qpositive (py_max 0 (5 - (c - l)))); eexists; reflexivity.
  - eexists; reflexivity.
  - eexists; reflexivity.
Qed.

Lemma throttle_delay_active (c : Z) (l now : Q) :
  3 <= c -> (now - l < 5)%Q ->
  throttle_delay (mkAttempts c l) now = Some (5 - (now - l))%Q.
Proof.
  intros Hc Hage. unfold throttle_delay. simpl.
  apply Z.leb_le in Hc. rewrite Hc.
  assert (E : Qle_bool (5 - (now - l)) 0 = false).
  { destruct (Qle_bool (5 - (now - l)) 0) eqn:E; [|reflexivity].
    apply Qle_bool_iff in E. lra. }
  unfold py_max, Qpositive. rewrite E. simpl. rewrite E. reflexivity.
Qed.

(** C3. For every unlock attempt that prompts for the passphrase (no
    [master_password] argument) on an existing database whose [.attempts]
    holds a count of at least 3 and a timestamp less than 5 seconds old:
    the attempt is not rejected; it announces the wait, sleeps for the
    whole rest of the 5-second window, and only then reads the passphrase,
    which is the one the constructor goes on with. *)
Theorem prompted_unlock_waits_out_cooldown
  (X : Externals) (path : option str) (w : World) (d : DbFile) (c : Z) (l : Q)
  (wait : Q) (pw : str) (rest : list (Q * str)) :
  db_file w = Some d ->
  attempts_file w = Some (AttemptsJson c l) ->
  3 <= c ->
  (clock w - l < 5)%Q ->
  tty w = (wait, pw) :: rest ->
  exists delay w1,
    delay = (5 - (clock w - l))%Q
    /\ (0 < delay)%Q
    /\ _get_master_password X w = (Return pw, w1)
    /\ events w1
       = events w
           ++ [Print ("Too many failed attempts. Please wait "
                        ++ str_of_Z (py_int delay) ++ " seconds...")%string;
               Sleep delay;
               GetPass "Enter master password: "]
    /\ (clock w1 == l + 5 + wait)%Q
    /\ __init__ X path None w = __init__ X path (Some pw) w1.
Proof.
  intros Hdb Ha Hc Hage Htty.
  exists (5 - (clock w - l))%Q. eexists.
  split; [reflexivity|]. split; [lra|].
  split; [apply (get_master_password_run X w d wait pw rest Hdb Htty)|].
  assert (Hr : attempts_read w = mkAttempts c l).
  { unfold attempts_read. rewrite Ha. reflexivity. }
  cbv zeta. rewrite Hr. unfold after_throttle.
  rewrite (throttle_delay_active c l (clock w) Hc Hage).
  split; [|split].
  - cbn [events set_attempts_file set_tty set_clock emit].
    rewrite <- !app_assoc. reflexivity.
  - cbn [clock set_attempts_file set_tty set_clock emit]. lra.
  - rewrite init_prompted. unfold bind.
    rewrite (get_master_password_run X w d wait pw rest Hdb Htty).
    cbv zeta. rewrite Hr. unfold after_throttle.
    rewrite (throttle_delay_active c l (clock w) Hc Hage). reflexivity.
Qed.

Lemma prompted_unlock_waits_out_cooldown_witness :
  exists delay w1,
    delay = (5 - (clock Sample.world0 - 998))%Q
    /\ (0 < delay)%Q
    /\ _get_master_password Sample.imports Sample.world0 = (Return "hunter2", w1)
    /\ events w1
       = events Sample.world0
           ++ [Print ("Too many failed attempts. Please wait "
                        ++ str_of_Z (py_int delay) ++ " seconds...")%string;
               Sleep delay;
               GetPass "Enter master password: "]
    /\ (clock w1 == 998 + 5 + (1 # 2))%Q
    /\ __init__ Sample.imports None None Sample.world0
       = __init__ Sample.imports None (Some "hunter2") w1.
Proof.
  apply (prompted_unlock_waits_out_cooldown Sample.imports None Sample.world0
           (Sqlite (Some [mkRow 1 "bank" "not-a-token" 900 900])) 3 998
           (1 # 2) "hunter2" [(1, "y")%Q]).
  - reflexivity.
  - reflexivity.
  - lia.
  - reflexivity.
  - reflexivity.
Defined.

(** C3, as stated, fails: an unlock attempt that is given its passphrase as
    [master_password] is neither delayed nor rejected, although
    [.attempts] holds 3 failures and a timestamp 2 seconds old. *)
Lemma supplied_password_is_not_throttled :
  attempts_file Sample.world0 = Some (AttemptsJson 3 998)
  /\ (clock Sample.world0 - 998 < 5)%Q
  /\ exists db w',
       __init__ Sample.imports None (Some "guess") Sample.world0 = (Return db, w')
       /\ events w' = []
       /\ clock w' = clock Sample.world0.
Proof. run_all. Qed.

(** C4. On an existing database: whenever the constructor succeeds, with
    the passphrase given or prompted for, the failed count persisted
    afterwards is 0; and every unlock attempt whose passphrase is read at
    the prompt persists a new timestamp: the time the constructor ended at
    when it succeeds, the time the attempt began at when it fails. *)
Theorem unlock_resets_count_and_prompt_stamps
  (X : Externals) (path : option str) (w : World) (d : DbFile) :
  db_file w = Some d ->
  (forall mp db w',
      __init__ X path mp w = (Return db, w') -> persisted_count w' = 0)
  /\ (forall wait pw rest,
         tty w = (wait, pw) :: rest ->
         exists o w',
           __init__ X path None w = (o, w')
           /\ persisted_last_attempt w'
              = Some (match o with
                      | Return _ => clock w'
                      | Raise _ => clock w
                      end)).
Proof.
  intros Hdb. split.
  - intros mp db w' Hrun. destruct d as [t|].
    + destruct mp as [pw|].
      * destruct (init_supplied_run X path pw w t Hdb)
          as [salt [w1 [E [_ [_ [_ [Ha _]]]]]]].
        rewrite E in Hrun. inversion Hrun; subst w1.
        unfold persisted_count. rewrite Ha.
        destruct (attempts_file w); reflexivity.
      * destruct (tty w) as [|[wait pw] rest] eqn:Htty.
        -- destruct (get_master_password_eof X w (Sqlite t) Hdb Htty) as [w1 E].
           rewrite init_prompted in Hrun. unfold bind in Hrun.
           rewrite E in Hrun. discriminate.
        -- destruct (init_prompted_run X path w t wait pw rest Hdb Htty)
             as [salt [w1 [E [_ [_ [Ha _]]]]]].
           rewrite E in Hrun. inversion Hrun; subst w1.
           unfold persisted_count. rewrite Ha. reflexivity.
    + destruct mp as [pw|].
      * destruct (init_supplied_fails X path pw w Hdb) as [w1 [E _]].
        rewrite E in Hrun. discriminate.
      * rewrite init_prompted in Hrun. unfold bind in Hrun.
        destruct (tty w) as [|[wait pw] rest] eqn:Htty.
        -- destruct (get_master_password_eof X w NotADatabase Hdb Htty)
             as [w1 E].
           rewrite E in Hrun. discriminate.
        -- rewrite (get_master_password_run X w NotADatabase wait pw rest
                      Hdb Htty) in Hrun.
           cbv zeta in Hrun.
           match type of Hrun with
           | __init__ X path (Some pw) ?w1 = _ =>
               destruct (init_supplied_fails X path pw w1) as [w2 [E _]]
           end.
           { cbn [db_file set_attempts_file set_tty set_clock emit].
             rewrite (proj1 (after_throttle_frame _ _)). exact Hdb. }
           rewrite E in Hrun. discriminate.
  - intros wait pw rest Htty. destruct d as [t|].
    + destruct (init_prompted_run X path w t wait pw rest Hdb Htty)
        as [salt [w1 [E [_ [_ [Ha _]]]]]].
      eexists. exists w1. split; [exact E|].
      unfold persisted_last_attempt. rewrite Ha. reflexivity.
    + rewrite init_prompted. unfold bind.
      rewrite (get_master_password_run X w NotADatabase wait pw rest Hdb Htty).
      cbv zeta.
      match goal with
      | |- context [__init__ X path (Some pw) ?w1] =>
          destruct (init_supplied_fails X path pw w1) as [w2 [E [Ha _]]]
      end.
      { cbn [db_file set_attempts_file set_tty set_clock emit].
        rewrite (proj1 (after_throttle_frame _ _)). exact Hdb. }
      eexists. exists w2. split; [exact E|].
      unfold persisted_last_attempt. rewrite Ha. reflexivity.
Qed.

Lemma unlock_resets_count_and_prompt_stamps_witness :
  (forall mp db w',
      __init__ Sample.imports None mp Sample.world0 = (Return db, w') ->
      persisted_count w' = 0)
  /\ (forall wait pw rest,
         tty Sample.world0 = (wait, pw) :: rest ->
         exists o w',
           __init__ Sample.imports None None Sample.world0 = (o, w')
           /\ persisted_last_attempt w'
              = Some (match o with
                      | Return _ => clock w'
                      | Raise _ => clock Sample.world0
                      end)).
Proof.
  apply (unlock_resets_count_and_prompt_stamps Sample.imports None
           Sample.world0 (Sqlite (Some [mkRow 1 "bank" "not-a-token" 900 900]))).
  reflexivity.
Defined.

(** C4, as stated, fails for attempts that are given their passphrase: a
    failing one (the database file is unreadable) leaves the persisted
    timestamp as it was, and a successful one on a vault without
    [.attempts] persists none. *)
Lemma supplied_password_leaves_timestamp :
  (let w := set_db_file (Some NotADatabase) Sample.world0 in
   persisted_last_attempt w = Some 998%Q
   /\ clock w = 1000%Q
   /\ exists e w',
        __init__ Sample.imports None (Some "guess") w = (Raise e, w')
        /\ persisted_last_attempt w' = Some 998%Q)
  /\ (let w := set_attempts_file None Sample.world0 in
      exists db w',
        __init__ Sample.imports None (Some "guess") w = (Return db, w')
        /\ persisted_last_attempt w' = None).
Proof. split; cbv zeta; run_all. Qed.

(** C5. On an existing database the constructor completes for every
    passphrase: the key is derived from it and the salt, the table is
    there, the persisted failed count is 0 afterwards, and the world it
    leaves is the same whatever the passphrase was; nothing compares the
    passphrase with stored data. This holds with the passphrase given as
    argument and with the passphrase typed at the prompt. *)
Theorem any_passphrase_unlocks
  (X : Externals) (path : option str) (w : World) (t : option (list Row)) :
  db_file w = Some (Sqlite t) ->
  (forall pw,
      exists salt w',
        __init__ X path (Some pw) w
        = (Return (mkPasswordDatabase (Some pw)
                     (Some (mkFernet (derived_key X pw salt)))), w')
        /\ salt_file w' = Some salt
        /\ db_file w'
           = Some (Sqlite (Some (match t with Some r => r | None => [] end)))
        /\ persisted_count w' = 0
        /\ (forall pw2, snd (__init__ X path (Some pw2) w) = w'))
  /\ (forall wait pw rest,
         tty w = (wait, pw) :: rest ->
         exists salt w',
           __init__ X path None w
           = (Return (mkPasswordDatabase (Some pw)
                        (Some (mkFernet (derived_key X pw salt)))), w')
           /\ salt_file w' = Some salt
           /\ db_file w'
              = Some (Sqlite (Some (match t with Some r => r | None => [] end)))
           /\ persisted_count w' = 0).
Proof.
  intros Hdb. split.
  - intros pw.
    destruct (init_supplied_run X path pw w t Hdb)
      as [salt [w' [E [Hs [_ [Hd [Ha [_ [_ [_ Hall]]]]]]]]]].
    exists salt, w'. repeat split; try assumption.
    unfold persisted_count. rewrite Ha. destruct (attempts_file w); reflexivity.
  - intros wait pw rest Htty.
    destruct (init_prompted_run X path w t wait pw rest Hdb Htty)
      as [salt [w' [E [Hs [Hd [Ha _]]]]]].
    exists salt, w'. repeat split; try assumption.
    unfold persisted_count. rewrite Ha. reflexivity.
Qed.

Lemma any_passphrase_unlocks_witness :
    exists salt w',
      __init__ Sample.imports None (Some "guess") Sample.world0
      = (Return (mkPasswordDatabase (Some "guess")
                   (Some (mkFernet (derived_key Sample.imports "guess" salt)))), w')
      /\ salt_file w' = Some salt
      /\ db_file w'
         = Some (Sqlite (Some [mkRow 1 "bank" "not-a-token" 900 900]))
      /\ persisted_count w' = 0
      /\ (forall pw2,
             snd (__init__ Sample.imports None (Some pw2) Sample.world0) = w').
Proof.
  apply (any_passphrase_unlocks Sample.imports None Sample.world0
           (Some [mkRow 1 "bank" "not-a-token" 900 900])).
  reflexivity.
Defined.

(** ** Title validation *)

Lemma truthy_some (title : str) :
  title <> EmptyString -> truthy (Some title) = true.
Proof. destruct title; [congruence | reflexivity]. Qed.

Lemma str_is_empty_false (title : str) :
  title <> EmptyString -> str_is_empty title = false.
Proof. destruct title; [congruence | reflexivity]. Qed.

Lemma has_invalid_characters_iff (title : str) :
  has_invalid_characters title = true
  <-> (str_contains "039"%char title = true
       \/ str_contains "034"%char title = true
       \/ str_contains ";"%char title = true
       \/ str_contains "092"%char title = true).
Proof.
  unfold has_invalid_characters. rewrite !orb_true_iff. tauto.
Qed.

(** C6. For every non-empty title that contains a single quote, a double
    quote, a semicolon or a backslash, each of the three commands of
    [main] that take a title (generate, copy, delete) prints the
    validation error and exits with status 1 before calling
    [add_password], [get_password] or [delete_password]: the world is the
    one the constructor left, plus the message. *)
Theorem main_rejects_invalid_title
  (X : Externals) (args : Args) (w w1 : World) (db : PasswordDatabase)
  (title : str) :
  __init__ X None (args_master_password args) w = (Return db, w1) ->
  title <> EmptyString ->
  (str_contains "039"%char title = true
   \/ str_contains "034"%char title = true
   \/ str_contains ";"%char title = true
   \/ str_contains "092"%char title = true) ->
  let rejected :=
    (Raise (SystemExit 1) : Outcome unit,
     emit (Print "Error: Title contains invalid characters") w1) in
  (args_generate args = Some title -> main X args w = rejected)
  /\ (truthy (args_generate args) = false ->
      args_copy args = Some title -> main X args w = rejected)
  /\ (truthy (args_generate args) = false ->
      truthy (args_copy args) = false ->
      args_list args = false ->
      args_delete args = Some title -> main X args w = rejected).
Proof.
  intros Hinit Hne Hbad rejected.
  apply has_invalid_characters_iff in Hbad.
  pose proof (truthy_some title Hne) as Ht.
  pose proof (str_is_empty_false title Hne) as He.
  unfold main, rejected, bind, try_except. rewrite Hinit.
  split; [|split].
  - intros Hg. rewrite Hg, Ht. cbn [orb negb]. rewrite He, Hbad. reflexivity.
  - intros Hg Hc. rewrite Hg, Hc, Ht. cbn [orb negb]. rewrite He, Hbad.
    reflexivity.
  - intros Hg Hc Hl Hd. rewrite Hg, Hc, Hl, Hd, Ht. cbn [orb negb].
    rewrite He, Hbad. reflexivity.
Qed.

Lemma main_rejects_invalid_title_witness :
  main Sample.imports
    (mkArgs (Some "a;b") None false None (Some "pw") 30 16
            false false false false 60)
    Sample.world0
  = (Raise (SystemExit 1),
     emit (Print "Error: Title contains invalid characters")
       (set_attempts_file (Some (AttemptsJson 0 1000)) Sample.world0)).
Proof.
  refine (proj1 (main_rejects_invalid_title Sample.imports
                   (mkArgs (Some "a;b") None false None (Some "pw") 30 16
                           false false false false 60)
                   Sample.world0 _ Sample.db0 "a;b" _ _ _) eq_refl).
  - reflexivity.
  - discriminate.
  - right. right. left. reflexivity.
Defined.

(** C6, as stated, fails: the operations of [PasswordDatabase] check
    nothing. With a title that holds a semicolon, and with the empty
    title, [add_password] stores a row, [get_password] reads it back and
    [delete_password] removes it. *)
Lemma core_operations_accept_any_title :
  has_invalid_characters "a;b" = true
  /\ (exists w1 w2,
         add_password Sample.imports Sample.db0 "a;b" "s3cret" Sample.world0
         = (Return true, w1)
         /\ list_passwords Sample.db0 w1 = (Return ["a;b"; "bank"], w1)
         /\ get_password Sample.imports Sample.db0 "a;b" w1
            = (Return (Some "s3cret"), w1)
         /\ delete_password Sample.db0 "a;b" w1 = (Return true, w2)
         /\ list_passwords Sample.db0 w2 = (Return ["bank"], w2))
  /\ (exists w1,
         add_password Sample.imports Sample.db0 EmptyString "s3cret"
           Sample.world0 = (Return true, w1)
         /\ list_passwords Sample.db0 w1 = (Return [EmptyString; "bank"], w1)).
Proof. run_all. Qed.

(** ** Reading *)

(** C8. On a database that has its table, [get_password title] returns
    [None] when no row has the title; when a row has it and [Fernet]
    rejects its ciphertext, the call prints the decryption error and
    returns [None] as well: nothing is raised, and the value returned is
    the one of the absent case. *)
Theorem get_password_absent_or_rejected
  (X : Externals) (self : PasswordDatabase) (k : bytes) (rows : list Row)
  (w : World) (t : str) :
  encryption_key self = Some (mkFernet k) ->
  db_file w = Some (Sqlite (Some rows)) ->
  (~ In t (map title rows) -> get_password X self t w = (Return None, w))
  /\ (forall c,
         select_password t rows = Some c ->
         Fernet_decrypt X k (str_encode c) = None ->
         get_password X self t w
         = (Return None, emit (Print "Decryption error: ") w)).
Proof.
  intros Hk Hdb. rewrite (get_password_run X self w rows Hdb t). split.
  - intros Hn. unfold select_password.
    rewrite find_none_existsb; [reflexivity|].
    destruct (existsb (has_title t) rows) eqn:E; [|reflexivity].
    apply existsb_has_title_In in E. contradiction.
  - intros c Hc Hrej. rewrite Hc, Hk, Hrej. reflexivity.
Qed.

Lemma get_password_absent_or_rejected_witness :
  (~ In "email" (map title [mkRow 1 "bank" "not-a-token" 900 900]) ->
   get_password Sample.imports Sample.db0 "email" Sample.world0
   = (Return None, Sample.world0))
  /\ (forall c,
         select_password "email" [mkRow 1 "bank" "not-a-token" 900 900] = Some c ->
         Fernet_decrypt Sample.imports [x70; x77; x73] (str_encode c) = None ->
         get_password Sample.imports Sample.db0 "email" Sample.world0
         = (Return None, emit (Print "Decryption error: ") Sample.world0)).
Proof.
  apply (get_password_absent_or_rejected Sample.imports Sample.db0
           [x70; x77; x73] [mkRow 1 "bank" "not-a-token" 900 900]
           Sample.world0 "email").
  - reflexivity.
  - reflexivity.
Defined.

(** C8, as stated, fails: a row whose ciphertext [Fernet] rejects gives
    the result of a title that is not stored, [None], and no exception. *)
Lemma rejected_ciphertext_reads_as_absent :
  select_password "bank" [mkRow 1 "bank" "not-a-token" 900 900]
  = Some "not-a-token"
  /\ Fernet_decrypt Sample.imports [x70; x77; x73] (str_encode "not-a-token")
     = None
  /\ fst (get_password Sample.imports Sample.db0 "bank" Sample.world0)
     = Return None
  /\ fst (get_password Sample.imports Sample.db0 "email" Sample.world0)
     = Return None.
Proof. run_all. Qed.

(** ** Operations after the key has been cleared *)

(** C10. Once the key is cleared ([clear_session] leaves
    [master_password] and [encryption_key] at [None]): [add_password]
    raises [AttributeError] and leaves the world as it was;
    [get_password] returns [None] in every world; [list_passwords] and
    [delete_password] do not look at the object and do what they do on an
    unlocked vault. *)
Theorem operations_after_clear_session
  (X : Externals) (db : PasswordDatabase) (w : World) :
  let cleared := mkPasswordDatabase None None in
  snd (fst (clear_session (Some db) w)) = Some cleared
  /\ (forall t p,
         add_password X cleared t p w
         = (Raise (AttributeError "'NoneType' object has no attribute 'encrypt'"),
            w))
  /\ (forall t, fst (get_password X cleared t w) = Return None)
  /\ list_passwords cleared w = list_passwords db w
  /\ (forall t, delete_password cleared t w = delete_password db t w).
Proof.
  intros cleared. split; [reflexivity|]. split; [reflexivity|].
  split; [|split; [reflexivity | reflexivity]].
  intros t.
  unfold get_password, sqlite3_connect, query_table, try_except, bind, modify.
  destruct w as [d a s m1 m2 m3 c r ty ev]. simpl.
  destruct d as [[[rows|]|]|]; simpl; try reflexivity.
  destruct (select_password t rows); reflexivity.
Qed.

(** C10, as stated, fails: on the object [clear_session] leaves behind,
    [list_passwords] returns the titles and [delete_password] removes a
    row and returns [True]; no error is raised. *)
Lemma cleared_session_still_lists_and_deletes :
  snd (fst (clear_session (Some Sample.db0) Sample.world0))
  = Some Sample.closed_db
  /\ list_passwords Sample.closed_db Sample.world0
     = (Return ["bank"], Sample.world0)
  /\ delete_password Sample.closed_db "bank" Sample.world0
     = (Return true, set_db_file (Some (Sqlite (Some []))) Sample.world0).
Proof. run_all. Qed.

(* ================================================================== *)
(** * Further properties of the vault *)

(** ** Listing *)

Lemma insert_sorted_Sorted (s : str) (l : list str) :
  Sorted str_le l -> Sorted str_le (insert_sorted s l).
Proof.
  induction l as [|x l IH]; simpl; intros Hs.
  - repeat constructor.
  - destruct (String.leb s x) eqn:E.
    + constructor; [exact Hs | constructor; exact E].
    + inversion Hs as [|? ? Hl Hh]; subst.
      assert (Hxs : str_le x s).
      { destruct (String.leb_total s x) as [H|H]; [congruence | exact H]. }
      constructor; [apply IH; exact Hl|].
      destruct l as [|y l]; simpl.
      * constructor. exact Hxs.
      * destruct (String.leb s y); constructor; [exact Hxs|].
        inversion Hh; assumption.
Qed.

Lemma order_by_Sorted (l : list str) : Sorted str_le (order_by l).
Proof.
  induction l as [|x l IH]; simpl; [constructor|].
  apply insert_sorted_Sorted. exact IH.
Qed.

(** X1. On a database that has its table, [list_passwords] changes
    nothing and returns the stored titles, each as often as it is stored,
    in ascending bytewise order. *)
Theorem list_passwords_sorted_titles
  (self : PasswordDatabase) (rows : list Row) (w : World) :
  db_file w = Some (Sqlite (Some rows)) ->
  exists l,
    list_passwords self w = (Return l, w)
    /\ Permutation l (map title rows)
    /\ Sorted str_le l.
Proof.
  intros Hdb. exists (select_titles rows).
  split; [apply (list_passwords_run self w rows Hdb)|].
  split; [apply order_by_perm | apply order_by_Sorted].
Qed.

Lemma list_passwords_sorted_titles_witness :
  exists l,
    list_passwords Sample.db0 Sample.world0 = (Return l, Sample.world0)
    /\ Permutation l (map title [mkRow 1 "bank" "not-a-token" 900 900])
    /\ Sorted str_le l.
Proof.
  apply (list_passwords_sorted_titles Sample.db0
           [mkRow 1 "bank" "not-a-token" 900 900] Sample.world0).
  reflexivity.
Defined.

(** ** Entries do not interfere *)

Lemma find_map_other (t t2 p : str) (now : Z) (rows : list Row) :
  t <> t2 ->
  option_map password
    (find (has_title t2)
       (map (fun r => if has_title t r
                      then mkRow (id r) (title r) p (created_at r) now
                      else r) rows))
  = option_map password (find (has_title t2) rows).
Proof.
  intros Hne. induction rows as [|r rows IH]; simpl; [reflexivity|].
  destruct (has_title t r) eqn:E1.
  - unfold has_title in *. simpl.
    apply String.eqb_eq in E1. rewrite E1.
    destruct (String.eqb_spec t t2); [contradiction | exact IH].
  - destruct (has_title t2 r); [reflexivity | exact IH].
Qed.

Lemma select_password_upsert_other (t t2 p : str) (now : Z) (rows : list Row) :
  t <> t2 ->
  select_password t2 (upsert t p now rows) = select_password t2 rows.
Proof.
  intros Hne. unfold select_password, upsert.
  destruct (existsb (has_title t) rows).
  - apply find_map_other. exact Hne.
  - generalize (next_rowid rows). intros i.
    induction rows as [|r rows IH]; simpl.
    + unfold has_title. simpl.
      destruct (String.eqb_spec t t2); [contradiction | reflexivity].
    + destruct (has_title t2 r); [reflexivity | exact IH].
Qed.

Lemma select_password_delete_other (t t2 : str) (rows : list Row) :
  t <> t2 ->
  select_password t2 (fst (delete_rows t rows)) = select_password t2 rows.
Proof.
  intros Hne. unfold select_password. simpl.
  induction rows as [|r rows IH]; simpl; [reflexivity|].
  destruct (has_title t r) eqn:E1; simpl.
  - unfold has_title in *. apply String.eqb_eq in E1. rewrite E1.
    destruct (String.eqb_spec t t2); [contradiction | exact IH].
  - destruct (has_title t2 r); [reflexivity | exact IH].
Qed.

Lemma select_password_deleted (t : str) (rows : list Row) :
  select_password t (fst (delete_rows t rows)) = None.
Proof.
  unfold select_password.
  rewrite find_none_existsb; [reflexivity | apply delete_rows_gone].
Qed.

(** What [get_password] returns depends on the world only through the
    row it selects. *)
Lemma get_password_same_selection
  (X : Externals) (self : PasswordDatabase) (t : str) (w w' : World)
  (rows rows' : list Row) :
  db_file w = Some (Sqlite (Some rows)) ->
  db_file w' = Some (Sqlite (Some rows')) ->
  select_password t rows' = select_password t rows ->
  fst (get_password X self t w') = fst (get_password X self t w).
Proof.
  intros H H' E.
  rewrite (get_password_run X self w rows H t),
    (get_password_run X self w' rows' H' t), E.
  destruct (select_password t rows) as [c|]; [|reflexivity].
  destruct (encryption_key self) as [[k]|]; [|reflexivity].
  destruct (Fernet_decrypt X k (str_encode c)); reflexivity.
Qed.

(** X2. On an unlocked vault, storing or deleting an entry under one
    title leaves what [get_password] returns for every other title as it
    was. *)
Theorem other_titles_unaffected
  (X : Externals) (self : PasswordDatabase) (k : bytes) (rows : list Row)
  (w : World) (t t2 p : str) :
  encryption_key self = Some (mkFernet k) ->
  db_file w = Some (Sqlite (Some rows)) ->
  t <> t2 ->
  fst (get_password X self t2 (snd (add_password X self t p w)))
  = fst (get_password X self t2 w)
  /\ fst (get_password X self t2 (snd (delete_password self t w)))
     = fst (get_password X self t2 w).
Proof.
  intros Hk Hdb Hne. split.
  - rewrite (add_password_run X self w rows Hdb k t p Hk).
    eapply get_password_same_selection; [exact Hdb | reflexivity |].
    apply select_password_upsert_other. exact Hne.
  - rewrite (delete_password_run self w rows Hdb t).
    eapply get_password_same_selection; [exact Hdb | reflexivity |].
    apply select_password_delete_other. exact Hne.
Qed.

Lemma other_titles_unaffected_witness :
  fst (get_password Sample.imports Sample.db0 "bank"
         (snd (add_password Sample.imports Sample.db0 "email" "hunter2"
                 Sample.world0)))
  = fst (get_password Sample.imports Sample.db0 "bank" Sample.world0)
  /\ fst (get_password Sample.imports Sample.db0 "bank"
            (snd (delete_password Sample.db0 "email" Sample.world0)))
     = fst (get_password Sample.imports Sample.db0 "bank" Sample.world0).
Proof.
  apply (other_titles_unaffected Sample.imports Sample.db0 [x70; x77; x73]
           [mkRow 1 "bank" "not-a-token" 900 900] Sample.world0
           "email" "bank" "hunter2").
  - reflexivity.
  - reflexivity.
  - discriminate.
Defined.

(** X3. On a database that has its table, after [delete_password title]
    a [get_password title] returns [None] without printing, and
    [list_passwords] no longer holds the title; this needs no key. *)
Theorem deleted_title_is_gone
  (X : Externals) (self : PasswordDatabase) (rows : list Row) (w : World)
  (t : str) :
  db_file w = Some (Sqlite (Some rows)) ->
  exists b w1 l,
    delete_password self t w = (Return b, w1)
    /\ get_password X self t w1 = (Return None, w1)
    /\ list_passwords self w1 = (Return l, w1)
    /\ ~ In t l.
Proof.
  intros Hdb. rewrite (delete_password_run self w rows Hdb t).
  eexists. eexists. eexists. split; [reflexivity|].
  split; [|split].
  - erewrite get_password_run by reflexivity.
    rewrite select_password_deleted. reflexivity.
  - erewrite list_passwords_run by reflexivity. reflexivity.
  - intros Hin. unfold select_titles in Hin.
    apply (Permutation_in _ (order_by_perm _)) in Hin.
    apply existsb_has_title_In in Hin.
    rewrite delete_rows_gone in Hin. discriminate.
Qed.

Lemma deleted_title_is_gone_witness :
  exists b w1 l,
    delete_password Sample.db0 "bank" Sample.world0 = (Return b, w1)
    /\ get_password Sample.imports Sample.db0 "bank" w1 = (Return None, w1)
    /\ list_passwords Sample.db0 w1 = (Return l, w1)
    /\ ~ In "bank" l.
Proof.
  apply (deleted_title_is_gone Sample.imports Sample.db0
           [mkRow 1 "bank" "not-a-token" 900 900] Sample.world0 "bank").
  reflexivity.
Defined.

Lemma filter_app_new (t p : str) (i now : Z) (rows : list Row) :
  existsb (has_title t) rows = false ->
  filter (fun r => negb (has_title t r)) (rows ++ [mkRow i t p now now])
  = rows.
Proof.
  intros E. rewrite filter_app, (filter_none_id t rows E). simpl.
  unfold has_title. simpl. rewrite String.eqb_refl. simpl.
  apply app_nil_r.
Qed.

(** X4. On an unlocked vault, storing an entry under a title that is not
    in the table and then deleting that title returns [True] and leaves
    the table exactly as it was before the two calls. *)
Theorem add_then_delete_restores_table
  (X : Externals) (self : PasswordDatabase) (k : bytes) (rows : list Row)
  (w : World) (t p : str) :
  encryption_key self = Some (mkFernet k) ->
  db_file w = Some (Sqlite (Some rows)) ->
  ~ In t (map title rows) ->
  exists w1 w2,
    add_password X self t p w = (Return true, w1)
    /\ delete_password self t w1 = (Return true, w2)
    /\ db_file w2 = db_file w.
Proof.
  intros Hk Hdb Hn.
  assert (E : existsb (has_title t) rows = false).
  { destruct (existsb (has_title t) rows) eqn:E; [|reflexivity].
    apply existsb_has_title_In in E. contradiction. }
  rewrite (add_password_run X self w rows Hdb k t p Hk).
  eexists. eexists. split; [reflexivity|].
  erewrite delete_password_run by reflexivity.
  assert (Hin : existsb (has_title t)
                  (upsert t (sealed X w k p) (current_timestamp w) rows) = true).
  { apply existsb_has_title_In, upsert_In. }
  rewrite Hin. split; [reflexivity|].
  cbn [db_file set_db_file fst delete_rows]. unfold upsert. rewrite E.
  rewrite filter_app_new by exact E. symmetry. exact Hdb.
Qed.

Lemma add_then_delete_restores_table_witness :
  exists w1 w2,
    add_password Sample.imports Sample.db0 "email" "hunter2" Sample.world0
    = (Return true, w1)
    /\ delete_password Sample.db0 "email" w1 = (Return true, w2)
    /\ db_file w2 = db_file Sample.world0.
Proof.
  apply (add_then_delete_restores_table Sample.imports Sample.db0
           [x70; x77; x73] [mkRow 1 "bank" "not-a-token" 900 900]
           Sample.world0 "email" "hunter2").
  - reflexivity.
  - reflexivity.
  - simpl. intros [H|[]]. discriminate.
Defined.

(** ** Storage errors *)

(** X5. When the database file is absent, has no table [passwords] or is
    not an SQLite database, no operation raises: [get_password] returns
    [None], [list_passwords] the empty list, [delete_password] and
    [add_password] return [False], each after printing one
    [Database error] line. Nothing is stored; an absent file is created
    empty by the connection. *)
Theorem storage_errors_are_swallowed
  (X : Externals) (self : PasswordDatabase) (k : bytes) (w : World)
  (t p : str) :
  encryption_key self = Some (mkFernet k) ->
  (forall rows, db_file w <> Some (Sqlite (Some rows))) ->
  exists msg,
    let report := emit (Print ("Database error: " ++ msg)%string) in
    get_password X self t w = (Return None, report (snd (sqlite3_connect w)))
    /\ list_passwords self w = (Return [], report (snd (sqlite3_connect w)))
    /\ delete_password self t w
       = (Return false, report (snd (sqlite3_connect w)))
    /\ add_password X self t p w
       = (Return false,
          report (snd (sqlite3_connect (set_rng (rng w + 16)%nat w))))
    /\ (forall rows,
           db_file (snd (sqlite3_connect w)) <> Some (Sqlite (Some rows))).
Proof.
  intros Hk Hno. destruct w as [d a s m1 m2 m3 c r ty ev].
  destruct self as [mp ek]. simpl in Hk. subst ek.
  destruct d as [[[rows|]|]|].
  - exfalso. apply (Hno rows). reflexivity.
  - exists "no such table: passwords".
    repeat (split; [reflexivity|]). intros rows; discriminate.
  - exists "file is not a database".
    repeat (split; [reflexivity|]). intros rows; discriminate.
  - exists "no such table: passwords".
    repeat (split; [reflexivity|]). intros rows; discriminate.
Qed.

Lemma storage_errors_are_swallowed_witness :
  exists msg,
    let report := emit (Print ("Database error: " ++ msg)%string) in
    get_password Sample.imports Sample.db0 "bank" Scenario.unreadable
    = (Return None, report (snd (sqlite3_connect Scenario.unreadable)))
    /\ list_passwords Sample.db0 Scenario.unreadable
       = (Return [], report (snd (sqlite3_connect Scenario.unreadable)))
    /\ delete_password Sample.db0 "bank" Scenario.unreadable
       = (Return false, report (snd (sqlite3_connect Scenario.unreadable)))
    /\ add_password Sample.imports Sample.db0 "bank" "s3cret"
         Scenario.unreadable
       = (Return false,
          report (snd (sqlite3_connect
                         (set_rng (rng Scenario.unreadable + 16)%nat
                            Scenario.unreadable))))
    /\ (forall rows,
           db_file (snd (sqlite3_connect Scenario.unreadable))
           <> Some (Sqlite (Some rows))).
Proof.
  apply (storage_errors_are_swallowed Sample.imports Sample.db0
           [x70; x77; x73] Scenario.unreadable "bank" "s3cret").
  - reflexivity.
  - intros rows. discriminate.
Defined.

(** X6. [add_password], [get_password], [list_passwords] and
    [delete_password] leave [.attempts], [.salt], the permission bits, the
    clock and the terminal as they were, in every world and with or
    without a key. *)
Theorem operations_keep_surroundings
  (X : Externals) (self : PasswordDatabase) (w : World) (t p : str) :
  same_surroundings w (snd (add_password X self t p w))
  /\ same_surroundings w (snd (get_password X self t w))
  /\ same_surroundings w (snd (list_passwords self w))
  /\ same_surroundings w (snd (delete_password self t w)).
Proof.
  destruct w as [d a s m1 m2 m3 c r ty ev]. destruct self as [mp [[k]|]].
  - split; [|split; [|split]].
    + destruct d as [[[rows|]|]|]; repeat split; reflexivity.
    + destruct d as [[[rows|]|]|]; try (repeat split; reflexivity).
      unfold get_password, sqlite3_connect, query_table, try_except, bind,
        modify, encryption_key_method, decrypt, ret, raise.
      cbn [db_file encryption_key fst snd].
      destruct (select_password t rows) as [c0|];
        [|repeat split; reflexivity].
      cbn. destruct (Fernet_decrypt X k (str_encode c0));
        repeat split; reflexivity.
    + destruct d as [[[rows|]|]|]; repeat split; reflexivity.
    + destruct d as [[[rows|]|]|]; repeat split; reflexivity.
  - split; [|split; [|split]].
    + repeat split; reflexivity.
    + destruct d as [[[rows|]|]|]; try (repeat split; reflexivity).
      unfold get_password, sqlite3_connect, query_table, try_except, bind,
        modify, encryption_key_method, decrypt, ret, raise.
      cbn [db_file encryption_key fst snd].
      destruct (select_password t rows) as [c0|]; repeat split; reflexivity.
    + destruct d as [[[rows|]|]|]; repeat split; reflexivity.
    + destruct d as [[[rows|]|]|]; repeat split; reflexivity.
Qed.

(** ** Sessions *)




(** The constructor, password given, in any world: what it does to the
    salt and to the permission bits. *)
Lemma init_supplied_salt_and_modes
  (X : Externals) (path : option str) (pw : str) (w : World) :
  (forall s, salt_file w = Some s ->
             salt_file (snd (__init__ X path (Some pw) w)) = Some s
             /\ salt_mode (snd (__init__ X path (Some pw) w)) = salt_mode w)
  /\ (forall db w',
         __init__ X path (Some pw) w = (Return db, w') ->
         db_mode w' = o600 /\ dir_mode w' = o700
         /\ (salt_file w = None -> salt_mode w' = o600)).
Proof.
  destruct w as [d a s m1 m2 m3 c r ty ev].
  split.
  - intros s0 Hs. simpl in Hs. subst s.
    destruct d as [[[rows|]|]|], a as [[n l|]|]; split; reflexivity.
  - intros db w' Hrun.
    destruct d as [[[rows|]|]|], a as [[n l|]|], s as [s|];
      lazy in Hrun; inversion Hrun; subst;
      repeat split; try reflexivity; intros; discriminate.
Qed.

(** X8. The salt is written once: whenever [.salt] exists, the
    constructor leaves its content and its permission bits as they are,
    whatever the passphrase and the state of the database file, both when
    the passphrase is given and when it is asked for on an existing
    database. *)
Theorem salt_is_never_overwritten
  (X : Externals) (path : option str) (mp : option str) (w : World)
  (s : bytes) :
  salt_file w = Some s ->
  (mp = None -> db_file w <> None) ->
  salt_file (snd (__init__ X path mp w)) = Some s
  /\ salt_mode (snd (__init__ X path mp w)) = salt_mode w.
Proof.
  intros Hs Hex. destruct mp as [pw|].
  - apply (init_supplied_salt_and_modes X path pw w). exact Hs.
  - destruct (db_file w) as [d|] eqn:Hdb; [|exfalso; apply Hex; reflexivity].
    rewrite init_prompted. unfold bind.
    destruct (tty w) as [|[wait pw] rest] eqn:Htty.
    + destruct w as [d0 a s0 m1 m2 m3 c r ty ev].
      simpl in Hs, Hdb, Htty. subst d0 s0 ty.
      unfold _get_master_password, try_except, bind, db_exists,
        load_attempts, gets, time_time.
      simpl.
      destruct a as [[n l|]|]; simpl; try (split; reflexivity).
      destruct (3 <=? n); [|split; reflexivity].
      destruct (Qpositive (py_max 0 (5 - (c - l)))); split; reflexivity.
    + rewrite (get_master_password_run X w d wait pw rest Hdb Htty).
      cbv zeta.
      destruct (after_throttle_frame (attempts_read w) w) as [_ [_ [F3 _]]].
      match goal with
      | |- context [__init__ X path (Some pw) ?w1] =>
          destruct (proj1 (init_supplied_salt_and_modes X path pw w1) s)
            as [H1 H2];
          [cbn [salt_file set_attempts_file set_tty set_clock emit];
           rewrite F3; exact Hs|];
          rewrite H1, H2
      end.
      split; [reflexivity|].
      cbn [salt_mode set_attempts_file set_tty set_clock emit].
      unfold after_throttle.
      destruct (throttle_delay (attempts_read w) (clock w)); reflexivity.
Qed.

Lemma salt_is_never_overwritten_witness :
  salt_file (snd (__init__ Sample.imports None None Sample.world0))
  = Some [x73]
  /\ salt_mode (snd (__init__ Sample.imports None None Sample.world0))
     = salt_mode Sample.world0.
Proof.
  apply (salt_is_never_overwritten Sample.imports None None Sample.world0
           [x73]).
  - reflexivity.
  - intros _. discriminate.
Defined.

(** ** The attempt counter and the throttle *)

Lemma throttle_delay_inactive (a : AttemptsData) (now : Q) :
  count a < 3 \/ (5 <= now - last_attempt a)%Q ->
  throttle_delay a now = None.
Proof.
  intros H. unfold throttle_delay.
  destruct (3 <=? count a) eqn:E; [|reflexivity].
  apply Z.leb_le in E. destruct H as [H|H]; [lia|].
  assert (E0 : Qle_bool (5 - (now - last_attempt a)) 0 = true).
  { apply Qle_bool_iff. lra. }
  unfold py_max, Qpositive. cbv zeta. rewrite E0. reflexivity.
Qed.

Lemma prompt_without_delay_aux
  (X : Externals) (w : World) (d : DbFile) (wait : Q) (pw : str)
  (rest : list (Q * str)) :
  db_file w = Some d ->
  tty w = (wait, pw) :: rest ->
  count (attempts_read w) < 3
  \/ (5 <= clock w - last_attempt (attempts_read w))%Q ->
  exists w1,
    _get_master_password X w = (Return pw, w1)
    /\ events w1 = events w ++ [GetPass "Enter master password: "].
Proof.
  intros Hdb Htty Hcalm.
  rewrite (get_master_password_run X w d wait pw rest Hdb Htty).
  eexists. split; [reflexivity|]. cbv zeta. unfold after_throttle.
  rewrite (throttle_delay_inactive _ _ Hcalm). reflexivity.
Qed.

(** X10. A prompted unlock attempt on an existing database is not
    delayed when the persisted count is below 3 (an absent or unreadable
    [.attempts] counts as 0) or when the persisted timestamp is at least 5
    seconds old: the prompt is the only event, and [.attempts] then
    holds the count plus one and the time the attempt began. *)
Theorem prompt_without_delay
  (X : Externals) (w : World) (d : DbFile) (wait : Q) (pw : str)
  (rest : list (Q * str)) :
  db_file w = Some d ->
  tty w = (wait, pw) :: rest ->
  count (attempts_read w) < 3
  \/ (5 <= clock w - last_attempt (attempts_read w))%Q ->
  exists w1,
    _get_master_password X w = (Return pw, w1)
    /\ events w1 = events w ++ [GetPass "Enter master password: "]
    /\ clock w1 = (clock w + wait)%Q
    /\ attempts_file w1
       = Some (AttemptsJson (count (attempts_read w) + 1) (clock w)).
Proof.
  intros Hdb Htty Hcalm.
  rewrite (get_master_password_run X w d wait pw rest Hdb Htty).
  eexists. split; [reflexivity|]. cbv zeta. unfold after_throttle.
  rewrite (throttle_delay_inactive _ _ Hcalm).
  repeat split; reflexivity.
Qed.

Lemma prompt_without_delay_witness :
  exists w1,
    _get_master_password Sample.imports Scenario.calm = (Return "hunter2", w1)
    /\ events w1 = events Scenario.calm ++ [GetPass "Enter master password: "]
    /\ clock w1 = (clock Scenario.calm + (1 # 2))%Q
    /\ attempts_file w1
       = Some (AttemptsJson (count (attempts_read Scenario.calm) + 1)
                 (clock Scenario.calm)).
Proof.
  apply (prompt_without_delay Sample.imports Scenario.calm
           (Sqlite (Some [mkRow 1 "bank" "not-a-token" 900 900]))
           (1 # 2) "hunter2" [(1, "y")%Q]).
  - reflexivity.
  - reflexivity.
  - left. reflexivity.
Defined.

(** The count persisted after a successful constructor on an existing
    database. *)
Lemma init_return_count_zero
  (X : Externals) (path : option str) (mp : option str) (w w' : World)
  (d : DbFile) (db : PasswordDatabase) :
  db_file w = Some d ->
  __init__ X path mp w = (Return db, w') ->
  count (attempts_read w') = 0 /\ exists d', db_file w' = Some d'.
Proof.
  intros Hdb Hrun. destruct d as [t|].
  - destruct mp as [pw|].
    + destruct (init_supplied_run X path pw w t Hdb)
        as [salt [w1 [E [_ [_ [Hd [Ha _]]]]]]].
      rewrite E in Hrun. inversion Hrun; subst w1.
      split; [|eexists; exact Hd].
      unfold attempts_read. rewrite Ha.
      destruct (attempts_file w); reflexivity.
    + destruct (tty w) as [|[wait pw] rest] eqn:Htty.
      * destruct (get_master_password_eof X w (Sqlite t) Hdb Htty) as [w1 E].
        rewrite init_prompted in Hrun. unfold bind in Hrun.
        rewrite E in Hrun. discriminate.
      * destruct (init_prompted_run X path w t wait pw rest Hdb Htty)
          as [salt [w1 [E [_ [Hd [Ha _]]]]]].
        rewrite E in Hrun. inversion Hrun; subst w1.
        split; [|eexists; exact Hd].
        unfold attempts_read. rewrite Ha. reflexivity.
  - exfalso. destruct mp as [pw|].
    + destruct (init_supplied_fails X path pw w Hdb) as [w1 [E _]].
      rewrite E in Hrun. discriminate.
    + rewrite init_prompted in Hrun. unfold bind in Hrun.
      destruct (tty w) as [|[wait pw] rest] eqn:Htty.
      * destruct (get_master_password_eof X w NotADatabase Hdb Htty)
          as [w1 E].
        rewrite E in Hrun. discriminate.
      * rewrite (get_master_password_run X w NotADatabase wait pw rest
                   Hdb Htty) in Hrun.
        cbv zeta in Hrun.
        match type of Hrun with
        | __init__ X path (Some pw) ?w1 = _ =>
            destruct (init_supplied_fails X path pw w1) as [w2 [E _]]
        end.
        { cbn [db_file set_attempts_file set_tty set_clock emit].
          rewrite (proj1 (after_throttle_frame _ _)). exact Hdb. }
        rewrite E in Hrun. discriminate.
Qed.

(** X11. After a successful unlock of an existing vault, the next
    prompted attempt is not delayed, however soon it comes: in any later
    world that still has the database and the [.attempts] the unlock
    wrote, the prompt is the only event. *)
Theorem no_delay_after_successful_unlock
  (X : Externals) (path : option str) (mp : option str) (w w1 w2 : World)
  (d d2 : DbFile) (db : PasswordDatabase) (wait : Q) (pw : str)
  (rest : list (Q * str)) :
  db_file w = Some d ->
  __init__ X path mp w = (Return db, w1) ->
  attempts_file w2 = attempts_file w1 ->
  db_file w2 = Some d2 ->
  tty w2 = (wait, pw) :: rest ->
  exists w3,
    _get_master_password X w2 = (Return pw, w3)
    /\ events w3 = events w2 ++ [GetPass "Enter master password: "].
Proof.
  intros Hdb Hrun Ha Hd2 Htty.
  destruct (init_return_count_zero X path mp w w1 d db Hdb Hrun) as [Hc _].
  assert (Hc2 : count (attempts_read w2) = 0).
  { unfold attempts_read in *. rewrite Ha. exact Hc. }
  destruct (prompt_without_delay_aux X w2 d2 wait pw rest Hd2 Htty)
    as [w3 [E He]]; [left; lia|].
  exists w3. split; assumption.
Qed.

Lemma no_delay_after_successful_unlock_witness :
  exists w3,
    _get_master_password Sample.imports
      (set_attempts_file (Some (AttemptsJson 0 1000)) Sample.world0)
    = (Return "hunter2", w3)
    /\ events w3
       = events (set_attempts_file (Some (AttemptsJson 0 1000)) Sample.world0)
           ++ [GetPass "Enter master password: "].
Proof.
  apply (no_delay_after_successful_unlock Sample.imports None (Some "pw")
           Sample.world0
           (set_attempts_file (Some (AttemptsJson 0 1000)) Sample.world0)
           (set_attempts_file (Some (AttemptsJson 0 1000)) Sample.world0)
           (Sqlite (Some [mkRow 1 "bank" "not-a-token" 900 900]))
           (Sqlite (Some [mkRow 1 "bank" "not-a-token" 900 900]))
           Sample.db0 (1 # 2) "hunter2" [(1, "y")%Q]).
  - reflexivity.
  - reflexivity.
  - reflexivity.
  - reflexivity.
  - reflexivity.
Defined.

(** X12. A failed unlock attempt (the database file is not an SQLite
    database) on a vault whose [.attempts] holds count [c] leaves count
    [c + 1] when the passphrase was given and count [c + 2] when it was
    read at the prompt: the prompt counts the attempt once and the failure
    handler of the constructor once more. *)
Theorem failed_attempt_counts
  (X : Externals) (path : option str) (w : World) (c : Z) (l : Q) :
  db_file w = Some NotADatabase ->
  attempts_file w = Some (AttemptsJson c l) ->
  (forall pw,
      exists e w',
        __init__ X path (Some pw) w = (Raise e, w')
        /\ persisted_count w' = c + 1)
  /\ (forall wait pw rest,
         tty w = (wait, pw) :: rest ->
         exists e w',
           __init__ X path None w = (Raise e, w')
           /\ persisted_count w' = c + 2).
Proof.
  intros Hdb Ha. split.
  - intros pw.
    destruct (init_supplied_fails X path pw w Hdb) as [w' [E [Ha' _]]].
    eexists. exists w'. split; [exact E|].
    unfold persisted_count. rewrite Ha', Ha. reflexivity.
  - intros wait pw rest Htty.
    rewrite init_prompted. unfold bind.
    rewrite (get_master_password_run X w NotADatabase wait pw rest Hdb Htty).
    cbv zeta.
    match goal with
    | |- context [__init__ X path (Some pw) ?w1] =>
        destruct (init_supplied_fails X path pw w1) as [w2 [E [Ha' _]]]
    end.
    { cbn [db_file set_attempts_file set_tty set_clock emit].
      rewrite (proj1 (after_throttle_frame _ _)). exact Hdb. }
    eexists. exists w2. split; [exact E|].
    unfold persisted_count. rewrite Ha'.
    cbn [attempts_file set_attempts_file].
    unfold attempts_read. rewrite Ha. cbn [count]. lia.
Qed.

Lemma failed_attempt_counts_witness :
  (forall pw,
      exists e w',
        __init__ Sample.imports None (Some pw) Scenario.unreadable
        = (Raise e, w')
        /\ persisted_count w' = 3 + 1)
  /\ (forall wait pw rest,
         tty Scenario.unreadable = (wait, pw) :: rest ->
         exists e w',
           __init__ Sample.imports None None Scenario.unreadable = (Raise e, w')
           /\ persisted_count w' = 3 + 2).
Proof.
  apply (failed_attempt_counts Sample.imports None Scenario.unreadable 3 998).
  - reflexivity.
  - reflexivity.
Defined.

(** The prompt on an existing database when no line can be read. *)
Lemma get_master_password_eof_run (X : Externals) (w : World) (d : DbFile) :
  db_file w = Some d ->
  tty w = [] ->
  _get_master_password X w
  = (Raise (SystemExit 1),
     emit (Print "Use --master-password option for non-interactive mode.")
       (emit (Print "Error: Master password is required.")
          (emit (GetPass "Enter master password: ")
             (after_throttle (attempts_read w) w)))).
Proof.
  intros Hdb Htty. destruct w as [d0 a s m1 m2 m3 c r ty ev].
  simpl in Hdb, Htty. subst d0 ty.
  unfold _get_master_password, after_throttle, throttle_delay, attempts_read,
    try_except, bind, db_exists, load_attempts, gets, time_time.
  simpl.
  destruct a as [[n l|]|]; simpl.
  - destruct (3 <=? n); [|reflexivity].
    destruct (Qpositive (py_max 0 (5 - (c - l)))); reflexivity.
  - reflexivity.
  - reflexivity.
Qed.

(** X13. When the constructor prompts on an existing database and no
    line can be read, it prints the two lines that ask for
    [--master-password] and exits with status 1; the attempt is not
    recorded: [.attempts], [.salt] and the database are as before. *)
Theorem prompt_at_end_of_input
  (X : Externals) (path : option str) (w : World) (d : DbFile) :
  db_file w = Some d ->
  tty w = [] ->
  exists w' before,
    __init__ X path None w = (Raise (SystemExit 1), w')
    /\ events w'
       = before
           ++ [GetPass "Enter master password: ";
               Print "Error: Master password is required.";
               Print "Use --master-password option for non-interactive mode."]
    /\ attempts_file w' = attempts_file w
    /\ salt_file w' = salt_file w
    /\ db_file w' = db_file w.
Proof.
  intros Hdb Htty. rewrite init_prompted. unfold bind.
  rewrite (get_master_password_eof_run X w d Hdb Htty).
  destruct (after_throttle_frame (attempts_read w) w) as [F1 [F2 [F3 _]]].
  eexists. exists (events (after_throttle (attempts_read w) w)).
  split; [reflexivity|].
  cbn [events attempts_file salt_file db_file emit].
  rewrite <- !app_assoc. repeat split; assumption || reflexivity.
Qed.

Lemma prompt_at_end_of_input_witness :
  exists w' before,
    __init__ Sample.imports None None Scenario.unattended
    = (Raise (SystemExit 1), w')
    /\ events w'
       = before
           ++ [GetPass "Enter master password: ";
               Print "Error: Master password is required.";
               Print "Use --master-password option for non-interactive mode."]
    /\ attempts_file w' = attempts_file Scenario.unattended
    /\ salt_file w' = salt_file Scenario.unattended
    /\ db_file w' = db_file Scenario.unattended.
Proof.
  apply (prompt_at_end_of_input Sample.imports None Scenario.unattended
           (Sqlite (Some [mkRow 1 "bank" "not-a-token" 900 900]))).
  - reflexivity.
  - reflexivity.
Defined.

(* ================================================================== *)
(** * Further properties of the command line *)

(** X14. When none of the generate, copy and delete arguments holds a
    non-empty title and [--list] is not given, [main] prints the help and
    exits with status 0 once the constructor has succeeded. An empty
    title given to [-g], [-c] or [-d] is such an argument: it selects no
    command and is not reported as an error. *)
Theorem main_without_action_prints_help
  (X : Externals) (args : Args) (w w1 : World) (db : PasswordDatabase) :
  __init__ X None (args_master_password args) w = (Return db, w1) ->
  truthy (args_generate args) = false ->
  truthy (args_copy args) = false ->
  args_list args = false ->
  truthy (args_delete args) = false ->
  main X args w = (Raise (SystemExit 0), emit PrintHelp w1).
Proof.
  intros Hinit Hg Hc Hl Hd.
  unfold main, bind, try_except. rewrite Hinit, Hg, Hc, Hl, Hd.
  reflexivity.
Qed.

Lemma main_without_action_prints_help_witness :
  main Sample.imports
    (mkArgs (Some EmptyString) None false None (Some "pw") 30 16
            false false false false 60)
    Sample.world0
  = (Raise (SystemExit 0),
     emit PrintHelp
       (set_attempts_file (Some (AttemptsJson 0 1000)) Sample.world0)).
Proof.
  apply (main_without_action_prints_help Sample.imports
           (mkArgs (Some EmptyString) None false None (Some "pw") 30 16
                   false false false false 60)
           Sample.world0 _ Sample.db0);
    reflexivity.
Defined.

(** X15. When the database file is not an SQLite database and the
    passphrase is given on the command line, [main] prints
    [Error initializing password database: file is not a database] and
    exits with status 1, whatever command was asked for. *)
Theorem main_reports_unreadable_database
  (X : Externals) (args : Args) (w : World) (pw : str) :
  args_master_password args = Some pw ->
  db_file w = Some NotADatabase ->
  exists w',
    __init__ X None (Some pw) w
    = (Raise (Sqlite3Error "file is not a database"), w')
    /\ main X args w
       = (Raise (SystemExit 1),
          emit (Print "Error initializing password database: file is not a database")
            w').
Proof.
  intros Hmp Hdb.
  destruct (init_supplied_fails X None pw w Hdb) as [w' [E _]].
  exists w'. split; [exact E|].
  unfold main, bind, try_except. rewrite Hmp, E. reflexivity.
Qed.

Lemma main_reports_unreadable_database_witness :
  exists w',
    __init__ Sample.imports None (Some "pw") Scenario.unreadable
    = (Raise (Sqlite3Error "file is not a database"), w')
    /\ main Sample.imports
         (mkArgs None None true None (Some "pw") 30 16
                 false false false false 60)
         Scenario.unreadable
       = (Raise (SystemExit 1),
          emit (Print "Error initializing password database: file is not a database")
            w').
Proof.
  apply (main_reports_unreadable_database Sample.imports
           (mkArgs None None true None (Some "pw") 30 16
                   false false false false 60)
           Scenario.unreadable "pw");
    reflexivity.
Defined.

Lemma print_lines_run (l : list str) (w : World) :
  fold_right (fun title k => bind (print ("  - " ++ title)%string) (fun _ => k))
    (ret tt) l w
  = (Return tt,
     fold_left (fun w' title => emit (Print ("  - " ++ title)%string) w') l w).
Proof.
  revert w. induction l as [|x l IH]; intros w; [reflexivity|].
  cbn [fold_right fold_left]. unfold bind at 1. unfold print at 1.
  unfold modify. apply IH.
Qed.

Lemma print_lines_world (l : list str) (w : World) :
  let w' := fold_left (fun w' title => emit (Print ("  - " ++ title)%string) w')
              l w in
  events w' = events w ++ map (fun title => Print ("  - " ++ title)%string) l
  /\ db_file w' = db_file w.
Proof.
  revert w. induction l as [|x l IH]; intros w; cbn [fold_left map].
  - rewrite app_nil_r. split; reflexivity.
  - destruct (IH (emit (Print ("  - " ++ x)%string) w)) as [He Hd].
    cbv zeta in *. rewrite He, Hd. cbn [events db_file emit].
    rewrite <- app_assoc. split; reflexivity.
Qed.

(** X16. With only [--list] asked for, on an unlocked vault, [main]
    returns normally, leaves the database as it is and prints
    [No passwords stored yet] when the table is empty, else the heading
    and one line per title in the order of [list_passwords]. *)
Theorem main_list_prints_titles
  (X : Externals) (args : Args) (w w1 : World) (db : PasswordDatabase)
  (rows : list Row) :
  __init__ X None (args_master_password args) w = (Return db, w1) ->
  db_file w1 = Some (Sqlite (Some rows)) ->
  truthy (args_generate args) = false ->
  truthy (args_copy args) = false ->
  args_list args = true ->
  exists w',
    main X args w = (Return tt, w')
    /\ db_file w' = db_file w1
    /\ events w'
       = events w1
           ++ match select_titles rows with
              | [] => [Print "No passwords stored yet"]
              | l => Print "Stored passwords:"
                       :: map (fun title => Print ("  - " ++ title)%string) l
              end.
Proof.
  intros Hinit Hdb Hg Hc Hl.
  unfold main, bind at 1, try_except. rewrite Hinit, Hg, Hc, Hl.
  cbn [orb negb]. unfold bind at 1.
  rewrite (list_passwords_run db w1 rows Hdb).
  destruct (select_titles rows) as [|x l].
  - eexists. split; [reflexivity|]. split; reflexivity.
  - unfold bind at 1. unfold print at 1. unfold modify.
    rewrite (print_lines_run (x :: l)).
    eexists. split; [reflexivity|].
    destruct (print_lines_world (x :: l) (emit (Print "Stored passwords:") w1))
      as [He Hd].
    cbv zeta in He, Hd. rewrite He, Hd. cbn [events db_file emit].
    rewrite <- app_assoc. split; reflexivity.
Qed.

Lemma main_list_prints_titles_witness :
  exists w',
    main Sample.imports
      (mkArgs None None true None (Some "pw") 30 16
              false false false false 60)
      Sample.world0
    = (Return tt, w')
    /\ db_file w'
       = db_file (set_attempts_file (Some (AttemptsJson 0 1000)) Sample.world0)
    /\ events w'
       = events (set_attempts_file (Some (AttemptsJson 0 1000)) Sample.world0)
           ++ match select_titles [mkRow 1 "bank" "not-a-token" 900 900] with
              | [] => [Print "No passwords stored yet"]
              | l => Print "Stored passwords:"
                       :: map (fun title => Print ("  - " ++ title)%string) l
              end.
Proof.
  apply (main_list_prints_titles Sample.imports
           (mkArgs None None true None (Some "pw") 30 16
                   false false false false 60)
           Sample.world0 _ Sample.db0
           [mkRow 1 "bank" "not-a-token" 900 900]);
    reflexivity.
Defined.

(** X17. The copy command, given a non-empty title without denylisted
    characters on an unlocked vault, prints [No password found for
    '<title>'] and exits with status 1 in three cases: no row has the
    title; [Fernet] rejects the stored ciphertext; the stored secret
    decrypts to the empty string. In none of them is the database
    changed. *)
Theorem main_copy_reports_not_found
  (X : Externals) (args : Args) (w w1 : World) (db : PasswordDatabase)
  (k : bytes) (rows : list Row) (title : str) :
  __init__ X None (args_master_password args) w = (Return db, w1) ->
  encryption_key db = Some (mkFernet k) ->
  db_file w1 = Some (Sqlite (Some rows)) ->
  truthy (args_generate args) = false ->
  args_copy args = Some title ->
  title <> EmptyString ->
  has_invalid_characters title = false ->
  select_password title rows = None
  \/ (exists c, select_password title rows = Some c
                /\ (Fernet_decrypt X k (str_encode c) = None
                    \/ Fernet_decrypt X k (str_encode c) = Some [])) ->
  exists w2,
    main X args w
    = (Raise (SystemExit 1),
       emit (Print ("No password found for '" ++ title ++ "'")%string) w2)
    /\ db_file w2 = db_file w1.
Proof.
  intros Hinit Hk Hdb Hg Hc Hne Hok Hcase.
  pose proof (truthy_some title Hne) as Ht.
  pose proof (str_is_empty_false title Hne) as He.
  unfold main, bind at 1, try_except. rewrite Hinit, Hg, Hc, Ht.
  cbn [orb negb]. rewrite He, Hok. unfold bind at 1.
  rewrite (get_password_run X db w1 rows Hdb title), Hk.
  destruct Hcase as [Hsel | [c [Hsel [Hrej | Hempty]]]]; rewrite Hsel.
  - exists w1. split; reflexivity.
  - rewrite Hrej. eexists. split; reflexivity.
  - rewrite Hempty. exists w1. split; reflexivity.
Qed.

Lemma main_copy_reports_not_found_witness :
  exists w2,
    main Sample.imports
      (mkArgs None (Some "bank") false None (Some "pw") 30 16
              false false false false 60)
      Sample.world0
    = (Raise (SystemExit 1),
       emit (Print ("No password found for '" ++ "bank" ++ "'")%string) w2)
    /\ db_file w2
       = db_file (set_attempts_file (Some (AttemptsJson 0 1000)) Sample.world0).
Proof.
  apply (main_copy_reports_not_found Sample.imports
           (mkArgs None (Some "bank") false None (Some "pw") 30 16
                   false false false false 60)
           Sample.world0 _ Sample.db0 [x70; x77; x73]
           [mkRow 1 "bank" "not-a-token" 900 900] "bank");
    try reflexivity.
  - discriminate.
  - right. exists "not-a-token". split; [reflexivity|]. left. reflexivity.
Defined.

(** X18. The delete command, given a non-empty title without denylisted
    characters, deletes nothing unless the answer to its question is [y]
    or [Y]: any other answer prints [Deletion cancelled] and returns, and
    when no answer can be read the [EOFError] of [input] leaves [main]
    uncaught; the database is unchanged in both cases. *)
Theorem main_delete_needs_confirmation
  (X : Externals) (args : Args) (w w1 : World) (db : PasswordDatabase)
  (title : str) :
  __init__ X None (args_master_password args) w = (Return db, w1) ->
  truthy (args_generate args) = false ->
  truthy (args_copy args) = false ->
  args_list args = false ->
  args_delete args = Some title ->
  title <> EmptyString ->
  has_invalid_characters title = false ->
  (forall wait answer rest,
      tty w1 = (wait, answer) :: rest ->
      lower_is_y answer = false ->
      exists w2,
        main X args w = (Return tt, emit (Print "Deletion cancelled") w2)
        /\ db_file w2 = db_file w1)
  /\ (tty w1 = [] ->
      exists w2,
        main X args w = (Raise EOFError, w2) /\ db_file w2 = db_file w1).
Proof.
  intros Hinit Hg Hc Hl Hd Hne Hok.
  pose proof (truthy_some title Hne) as Ht.
  pose proof (str_is_empty_false title Hne) as He.
  split.
  - intros wait answer rest Htty Hno.
    unfold main, bind at 1, try_except. rewrite Hinit, Hg, Hc, Hl, Hd, Ht.
    cbn [orb negb]. rewrite He, Hok.
    unfold bind at 1, input, read_line. rewrite Htty, Hno.
    eexists. split; reflexivity.
  - intros Htty.
    unfold main, bind at 1, try_except. rewrite Hinit, Hg, Hc, Hl, Hd, Ht.
    cbn [orb negb]. rewrite He, Hok.
    unfold bind at 1, input, read_line. rewrite Htty.
    eexists. split; reflexivity.
Qed.

Lemma main_delete_needs_confirmation_witness :
  (forall wait answer rest,
      tty (set_attempts_file (Some (AttemptsJson 0 1000)) Sample.world0)
      = (wait, answer) :: rest ->
      lower_is_y answer = false ->
      exists w2,
        main Sample.imports
          (mkArgs None None false (Some "bank") (Some "pw") 30 16
                  false false false false 60)
          Sample.world0
        = (Return tt, emit (Print "Deletion cancelled") w2)
        /\ db_file w2
           = db_file (set_attempts_file (Some (AttemptsJson 0 1000))
                        Sample.world0))
  /\ (tty (set_attempts_file (Some (AttemptsJson 0 1000)) Sample.world0) = [] ->
      exists w2,
        main Sample.imports
          (mkArgs None None false (Some "bank") (Some "pw") 30 16
                  false false false false 60)
          Sample.world0
        = (Raise EOFError, w2)
        /\ db_file w2
           = db_file (set_attempts_file (Some (AttemptsJson 0 1000))
                        Sample.world0)).
Proof.
  apply (main_delete_needs_confirmation Sample.imports
           (mkArgs None None false (Some "bank") (Some "pw") 30 16
                   false false false false 60)
           Sample.world0 _ Sample.db0 "bank");
    try reflexivity.
  discriminate.
Defined.

(** X19. The delete command, confirmed with [y] or [Y] on a database that
    has its table: when a row has the title, the rows with that title are
    removed and [Password for '<title>' deleted] is printed; when none
    has it, the table is unchanged, [No password found for '<title>'] is
    printed and [main] exits with status 1. *)
Theorem main_delete_confirmed
  (X : Externals) (args : Args) (w w1 : World) (db : PasswordDatabase)
  (rows : list Row) (title : str) (wait : Q) (answer : str)
  (rest : list (Q * str)) :
  __init__ X None (args_master_password args) w = (Return db, w1) ->
  db_file w1 = Some (Sqlite (Some rows)) ->
  truthy (args_generate args) = false ->
  truthy (args_copy args) = false ->
  args_list args = false ->
  args_delete args = Some title ->
  title <> EmptyString ->
  has_invalid_characters title = false ->
  tty w1 = (wait, answer) :: rest ->
  lower_is_y answer = true ->
  exists w2,
    db_file w2 = Some (Sqlite (Some (fst (delete_rows title rows))))
    /\ main X args w
       = if existsb (has_title title) rows
         then (Return tt,
               emit (Print ("Password for '" ++ title ++ "' deleted")%string) w2)
         else (Raise (SystemExit 1),
               emit (Print ("No password found for '" ++ title ++ "'")%string)
                 w2).
Proof.
  intros Hinit Hdb Hg Hc Hl Hd Hne Hok Htty Hyes.
  pose proof (truthy_some title Hne) as Ht.
  pose proof (str_is_empty_false title Hne) as He.
  unfold main, bind at 1, try_except. rewrite Hinit, Hg, Hc, Hl, Hd, Ht.
  cbn [orb negb]. rewrite He, Hok.
  unfold bind at 1, input, read_line. rewrite Htty, Hyes.
  unfold bind at 1.
  match goal with
  | |- context [delete_password db title ?w'] =>
      rewrite (delete_password_run db w' rows Hdb title)
  end.
  eexists. split; [|destruct (existsb (has_title title) rows); reflexivity].
  reflexivity.
Qed.

Lemma main_delete_confirmed_witness :
  exists w2,
    db_file w2
    = Some (Sqlite (Some (fst (delete_rows "bank"
                                 [mkRow 1 "bank" "not-a-token" 900 900]))))
    /\ main Sample.imports
         (mkArgs None None false (Some "bank") (Some "pw") 30 16
                 false false false false 60)
         (set_tty [(1, "Y")%Q] Sample.world0)
       = if existsb (has_title "bank") [mkRow 1 "bank" "not-a-token" 900 900]
         then (Return tt,
               emit (Print ("Password for '" ++ "bank" ++ "' deleted")%string) w2)
         else (Raise (SystemExit 1),
               emit (Print ("No password found for '" ++ "bank" ++ "'")%string)
                 w2).
Proof.
  apply (main_delete_confirmed Sample.imports
           (mkArgs None None false (Some "bank") (Some "pw") 30 16
                   false false false false 60)
           (set_tty [(1, "Y")%Q] Sample.world0)
           (set_attempts_file (Some (AttemptsJson 0 1000))
              (set_tty [(1, "Y")%Q] Sample.world0))
           Sample.db0
           [mkRow 1 "bank" "not-a-token" 900 900] "bank" 1 "Y" []);
    try reflexivity.
  discriminate.
Defined.

(* ================================================================== *)
(** * The dialogue for a new database *)

Section NewVaultProperties.

Variable any_isupper any_islower any_isdigit any_not_isalnum : str -> bool.

Let loop :=
  create_master_password_loop any_isupper any_islower any_isdigit
    any_not_isalnum.
Let policy :=
  meets_policy any_isupper any_islower any_isdigit any_not_isalnum.

Lemma create_loop_outcome (fuel : nat) :
  forall w,
    (List.length (tty w) <= fuel)%nat ->
    match loop fuel w with
    | (Return pw, w') =>
        policy pw
        /\ exists before wait1 wait2,
             tty w = before ++ (wait1, pw) :: (wait2, pw) :: tty w'
    | (Raise e, _) => e = EOFError
    end.
Proof.
  unfold loop, policy.
  induction fuel as [|fuel IH]; intros w Hlen.
  - simpl. unfold getpass, read_line.
    destruct (tty w) as [|[wait pw] rest]; [reflexivity | simpl in Hlen; lia].
  - cbn [create_master_password_loop]. unfold bind at 1.
    unfold getpass at 1, read_line.
    destruct (tty w) as [|[wait pw] rest] eqn:Htty; [reflexivity|].
    simpl in Hlen.
    assert (Hnext :
      forall w1, tty w1 = rest ->
        match create_master_password_loop any_isupper any_islower any_isdigit
                any_not_isalnum fuel w1 with
        | (Return pw', w') =>
            meets_policy any_isupper any_islower any_isdigit any_not_isalnum pw'
            /\ exists before wait1 wait2,
                 (wait, pw) :: rest
                 = before ++ (wait1, pw') :: (wait2, pw') :: tty w'
        | (Raise e, _) => e = EOFError
        end).
    { intros w1 H1. specialize (IH w1). rewrite H1 in IH.
      specialize (IH ltac:(lia)).
      destruct (create_master_password_loop _ _ _ _ fuel w1) as [[pw'|e] w'];
        [|exact IH].
      destruct IH as [Hp [before [wait1 [wait2 Hb]]]].
      split; [exact Hp|].
      exists ((wait, pw) :: before), wait1, wait2. rewrite Hb. reflexivity. }
    destruct (py_len pw <? 12) eqn:Hshort.
    { unfold bind at 1, print at 1, modify. apply Hnext. reflexivity. }
    cbv zeta.
    destruct (negb (any_isupper pw && any_islower pw && any_isdigit pw
                    && any_not_isalnum pw)) eqn:Hweak.
    { unfold bind at 1, print at 1, modify. apply Hnext. reflexivity. }
    unfold bind at 1, getpass at 1, read_line.
    cbn [tty set_tty set_clock emit].
    destruct rest as [|[wait2 confirm] rest2]; [reflexivity|].
    destruct (String.eqb_spec pw confirm) as [Heq|Hneq].
    + subst confirm. unfold ret. cbn [tty set_tty]. split.
      * apply negb_false_iff in Hweak. rewrite !andb_true_iff in Hweak.
        apply Z.ltb_ge in Hshort. unfold meets_policy. tauto.
      * exists [], wait, wait2. reflexivity.
    + unfold bind at 1, print at 1, modify.
      match goal with
      | |- match create_master_password_loop _ _ _ _ fuel ?w1 with _ => _ end =>
          specialize (IH w1); cbn [tty set_tty set_clock emit] in IH;
          specialize (IH ltac:(simpl in Hlen |- *; lia));
          destruct (create_master_password_loop _ _ _ _ fuel w1)
            as [[pw'|e] w']; [|exact IH]
      end.
      destruct IH as [Hp [before [wait1 [wait3 Hb]]]].
      split; [exact Hp|].
      exists ((wait, pw) :: (wait2, confirm) :: before), wait1, wait3.
      rewrite Hb. reflexivity.
Qed.

(** X20. For a vault whose prompt for a new database is the dialogue of
    the source: on a missing database file, [_get_master_password] either
    returns a password that has at least 12 characters and holds an
    uppercase letter, a lowercase letter, a digit and a non-alphanumeric
    character, and that was typed twice in a row, or, the input ending
    first, exits with status 1. *)
Theorem new_master_password_meets_policy (X : Externals) (w : World) :
  create_master_password X
  = create_master_password_dialogue any_isupper any_islower any_isdigit
      any_not_isalnum ->
  db_file w = None ->
  match _get_master_password X w with
  | (Return pw, w') =>
      policy pw
      /\ exists before wait1 wait2,
           tty w = before ++ (wait1, pw) :: (wait2, pw) :: tty w'
  | (Raise e, _) => e = SystemExit 1
  end.
Proof.
  intros HX Hdb.
  unfold _get_master_password, try_except, bind at 1, db_exists, gets.
  rewrite Hdb. cbn [negb]. rewrite HX.
  unfold create_master_password_dialogue, bind, print, modify.
  match goal with
  | |- context [create_master_password_loop _ _ _ _ ?f ?w1] =>
      pose proof (create_loop_outcome f w1 (Nat.le_refl _)) as H;
      unfold loop in H;
      destruct (create_master_password_loop any_isupper any_islower
                  any_isdigit any_not_isalnum f w1) as [[pw|e] w']
  end.
  - exact H.
  - subst e. reflexivity.
Qed.

End NewVaultProperties.

Lemma new_master_password_meets_policy_witness :
  match _get_master_password NewVaultSample.imports NewVaultSample.world with
  | (Return pw, w') =>
      meets_policy NewVaultSample.any_isupper NewVaultSample.any_islower
        NewVaultSample.any_isdigit NewVaultSample.any_not_isalnum pw
      /\ exists before wait1 wait2,
           tty NewVaultSample.world
           = before ++ (wait1, pw) :: (wait2, pw) :: tty w'
  | (Raise e, _) => e = SystemExit 1
  end.
Proof.
  apply (new_master_password_meets_policy NewVaultSample.any_isupper
           NewVaultSample.any_islower NewVaultSample.any_isdigit
           NewVaultSample.any_not_isalnum NewVaultSample.imports
           NewVaultSample.world).
  - reflexivity.
  - reflexivity.
Defined.

(* ================================================================== *)
(** * password_generator.py *)

Section GeneratorProperties.

Import password_generator.

Variable entropy : nat -> nat.
Variable shuffle : nat -> list ascii -> list ascii.

Lemma list_ascii_of_string_app (a b : str) :
  list_ascii_of_string (a ++ b)%string
  = list_ascii_of_string a ++ list_ascii_of_string b.
Proof. induction a as [|c a IH]; simpl; [reflexivity | rewrite IH; reflexivity]. Qed.

Lemma string_of_list_ascii_length (l : list ascii) :
  String.length (string_of_list_ascii l) = List.length l.
Proof. induction l as [|c l IH]; simpl; [reflexivity | rewrite IH; reflexivity]. Qed.

Lemma choice_spec (seq : str) (n : nat) :
  seq <> EmptyString ->
  exists c, choice entropy seq n = (inl c, S n) /\ char_in c seq.
Proof.
  intros Hne. unfold choice, char_in.
  destruct seq as [|a seq]; [congruence|]. cbn [list_ascii_of_string].
  eexists. split; [reflexivity|].
  apply nth_In. apply Nat.mod_upper_bound. discriminate.
Qed.

Lemma choices_spec (k : nat) (seq : str) :
  seq <> EmptyString ->
  forall n,
    exists cs,
      choices entropy k seq n = (inl cs, (n + k)%nat)
      /\ List.length cs = k
      /\ Forall (fun c => char_in c seq) cs.
Proof.
  intros Hne. induction k as [|k IH]; intros n.
  - exists []. rewrite Nat.add_0_r. repeat split. constructor.
  - destruct (choice_spec seq n Hne) as [c [Ec Hc]].
    destruct (IH (S n)) as [cs [Ecs [Hl Hf]]].
    exists (c :: cs). cbn [choices]. unfold gbind. rewrite Ec, Ecs.
    unfold gret. replace (S n + k)%nat with (n + S k)%nat by lia.
    repeat split; [simpl; congruence | constructor; assumption].
Qed.

Lemma choose_each_spec (sets : list str) :
  Forall (fun seq => seq <> EmptyString) sets ->
  forall n,
    exists cs,
      choose_each entropy sets n = (inl cs, (n + List.length sets)%nat)
      /\ Forall2 char_in cs sets.
Proof.
  intros Hne. induction Hne as [|seq sets Hseq Hsets IH]; intros n.
  - exists []. rewrite Nat.add_0_r. split; [reflexivity | constructor].
  - destruct (choice_spec seq n Hseq) as [c [Ec Hc]].
    destruct (IH (S n)) as [cs [Ecs Hf]].
    exists (c :: cs). cbn [choose_each]. unfold gbind. rewrite Ec, Ecs.
    unfold gret. cbn [List.length].
    split; [f_equal; lia | constructor; assumption].
Qed.

Lemma selected_nonempty (a b c d : bool) :
  Forall (fun seq => seq <> EmptyString) (selected a b c d).
Proof.
  destruct a, b, c, d; repeat constructor; discriminate.
Qed.

(** The source's function is the arrangement by selected sets. *)
Lemma generate_password_arranged (length : Z) (a b c d : bool) (n : nat) :
  a || b || c || d = true ->
  generate_password entropy shuffle length a b c d n
  = generate_from entropy shuffle (selected a b c d) length n.
Proof.
  intros H.
  destruct a, b, c, d; try discriminate H; reflexivity.
Qed.

Lemma char_in_concat (ch : ascii) (sets : list str) :
  char_in ch (fold_right String.append EmptyString sets)
  <-> exists seq, In seq sets /\ char_in ch seq.
Proof.
  unfold char_in. induction sets as [|s sets IH]; cbn [fold_right].
  - simpl. split; [tauto | intros [seq [[] _]]].
  - rewrite list_ascii_of_string_app, in_app_iff, IH. split.
    + intros [H|[seq [H1 H2]]].
      * exists s. split; [left; reflexivity | exact H].
      * exists seq. split; [right; exact H1 | exact H2].
    + intros [seq [[E|H1] H2]].
      * subst seq. left. exact H2.
      * right. exists seq. tauto.
Qed.

Lemma concat_nonempty (sets : list str) :
  sets <> [] -> Forall (fun seq => seq <> EmptyString) sets ->
  fold_right String.append EmptyString sets <> EmptyString.
Proof.
  intros Hne Hall. destruct sets as [|s sets]; [congruence|].
  inversion Hall as [|? ? Hs _]; subst. cbn [fold_right].
  destruct s; [congruence | discriminate].
Qed.

Lemma selected_not_nil (a b c d : bool) :
  a || b || c || d = true -> selected a b c d <> [].
Proof. destruct a, b, c, d; try discriminate; intros _; discriminate. Qed.

(** What [generate_from] returns, for non-empty sets. *)
Lemma generate_from_spec (sets : list str) (length : Z) (n : nat) :
  (forall i l, Permutation (shuffle i l) l) ->
  sets <> [] ->
  Forall (fun seq => seq <> EmptyString) sets ->
  exists firsts more n',
    generate_from entropy shuffle sets length n
    = (inl (string_of_list_ascii (shuffle n' (firsts ++ more))), n')
    /\ Forall2 char_in firsts sets
    /\ List.length more = Z.to_nat (length - Z.of_nat (List.length sets))
    /\ Forall (fun ch => char_in ch (fold_right String.append EmptyString sets))
              more.
Proof.
  intros Hperm Hne Hall.
  destruct (choose_each_spec sets Hall n) as [firsts [E1 H1]].
  assert (Hlen : List.length firsts = List.length sets).
  { apply (Forall2_length H1). }
  destruct (choices_spec
              (Z.to_nat (length - Z.of_nat (List.length firsts)))
              (fold_right String.append EmptyString sets)
              (concat_nonempty sets Hne Hall)
              (n + List.length sets)%nat) as [more [E2 [H2 H3]]].
  exists firsts, more. eexists.
  unfold generate_from, gbind. rewrite E1, E2.
  split; [reflexivity|]. rewrite <- Hlen. repeat split; assumption.
Qed.

(** X21. [generate_password] raises [ValueError] exactly when no
    character set is selected, and then draws nothing. With at least one
    set selected it returns a password whose length is the larger of
    [length] and the number of selected sets: a [length] that is too
    small, zero or negative still gives one character per set. *)
Theorem generate_password_length
  (length : Z) (a b c d : bool) (n : nat) :
  (forall i l, Permutation (shuffle i l) l) ->
  (a || b || c || d = false ->
   generate_password entropy shuffle length a b c d n
   = (inr (RaisedValueError "At least one character set must be selected"), n))
  /\ (a || b || c || d = true ->
      exists pw n',
        generate_password entropy shuffle length a b c d n = (inl pw, n')
        /\ Z.of_nat (String.length pw)
           = Z.max length (Z.of_nat (List.length (selected a b c d)))).
Proof.
  intros Hperm. split.
  - intros H. destruct a, b, c, d; try discriminate H. reflexivity.
  - intros H. rewrite (generate_password_arranged length a b c d n H).
    destruct (generate_from_spec (selected a b c d) length n Hperm
                (selected_not_nil a b c d H) (selected_nonempty a b c d))
      as [firsts [more [n' [E [H1 [H2 _]]]]]].
    eexists. exists n'. split; [exact E|].
    rewrite string_of_list_ascii_length.
    rewrite (Permutation_length (Hperm n' (firsts ++ more))).
    rewrite length_app, H2.
    assert (Hlen : List.length firsts = List.length (selected a b c d)).
    { apply (Forall2_length H1). }
    rewrite Hlen. lia.
Qed.

Lemma each_choice_from_a_set (cs : list ascii) (sets : list str) (ch : ascii) :
  Forall2 char_in cs sets -> In ch cs ->
  exists seq, In seq sets /\ char_in ch seq.
Proof.
  intros H. induction H as [|x seq xs sets' Hx _ IH]; intros Hin;
    [destruct Hin|].
  destruct Hin as [Ex|Hin].
  - subst x. exists seq. split; [left; reflexivity | exact Hx].
  - destruct (IH Hin) as [s [Hs1 Hs2]]. exists s. split; [right|]; assumption.
Qed.

Lemma each_set_has_a_choice (cs : list ascii) (sets : list str) (seq : str) :
  Forall2 char_in cs sets -> In seq sets ->
  exists ch, char_in ch seq /\ In ch cs.
Proof.
  intros H. induction H as [|x s xs sets' Hx _ IH]; intros Hseq;
    [destruct Hseq|].
  destruct Hseq as [Es|Hseq].
  - subst s. exists x. split; [exact Hx | left; reflexivity].
  - destruct (IH Hseq) as [ch [Hc1 Hc2]]. exists ch.
    split; [exact Hc1 | right; exact Hc2].
Qed.

(** X22. With at least one character set selected, every character of
    the password [generate_password] returns belongs to one of the
    selected sets, and every selected set has one of its characters in
    the password. *)
Theorem generate_password_characters
  (length : Z) (a b c d : bool) (n : nat) :
  (forall i l, Permutation (shuffle i l) l) ->
  a || b || c || d = true ->
  exists pw n',
    generate_password entropy shuffle length a b c d n = (inl pw, n')
    /\ (forall ch, char_in ch pw ->
                   exists seq, In seq (selected a b c d) /\ char_in ch seq)
    /\ (forall seq, In seq (selected a b c d) ->
                    exists ch, char_in ch seq /\ char_in ch pw).
Proof.
  intros Hperm H. rewrite (generate_password_arranged length a b c d n H).
  destruct (generate_from_spec (selected a b c d) length n Hperm
              (selected_not_nil a b c d H) (selected_nonempty a b c d))
    as [firsts [more [n' [E [H1 [_ H3]]]]]].
  eexists. exists n'. split; [exact E|].
  unfold char_in at 1 4. rewrite list_ascii_of_string_of_list_ascii.
  split.
  - intros ch Hin.
    apply (Permutation_in _ (Hperm n' (firsts ++ more))) in Hin.
    apply in_app_or in Hin. destruct Hin as [Hin|Hin].
    + apply (each_choice_from_a_set firsts _ ch H1 Hin).
    + rewrite Forall_forall in H3. apply char_in_concat. apply H3. exact Hin.
  - intros seq Hseq.
    destruct (each_set_has_a_choice firsts _ seq H1 Hseq) as [ch [Hc1 Hc2]].
    exists ch. split; [exact Hc1|].
    apply (Permutation_in _ (Permutation_sym (Hperm n' (firsts ++ more)))).
    apply in_or_app. left. exact Hc2.
Qed.

End GeneratorProperties.

Lemma generate_password_length_witness :
  (false || false || false || false = false ->
   password_generator.generate_password (fun i => 7 * i)%nat
     (fun _ l => rev l) 16 false false false false 0%nat
   = (inr (password_generator.RaisedValueError
             "At least one character set must be selected"), 0%nat))
  /\ (true || false || true || false = true ->
      exists pw n',
        password_generator.generate_password (fun i => 7 * i)%nat
          (fun _ l => rev l) 1 true false true false 0%nat = (inl pw, n')
        /\ Z.of_nat (String.length pw)
           = Z.max 1 (Z.of_nat (List.length
                                  (password_generator.selected
                                     true false true false)))).
Proof.
  split.
  - apply (generate_password_length (fun i => 7 * i)%nat (fun _ l => rev l)
             16 false false false false 0%nat).
    intros i l. apply Permutation_sym, Permutation_rev.
  - apply (generate_password_length (fun i => 7 * i)%nat (fun _ l => rev l)
             1 true false true false 0%nat).
    intros i l. apply Permutation_sym, Permutation_rev.
Defined.

Lemma generate_password_characters_witness :
  exists pw n',
    password_generator.generate_password (fun i => 7 * i)%nat
      (fun _ l => rev l) 16 true true true true 0%nat = (inl pw, n')
    /\ (forall ch, password_generator.char_in ch pw ->
                   exists seq,
                     In seq (password_generator.selected true true true true)
                     /\ password_generator.char_in ch seq)
    /\ (forall seq,
           In seq (password_generator.selected true true true true) ->
           exists ch, password_generator.char_in ch seq
                      /\ password_generator.char_in ch pw).
Proof.
  apply (generate_password_characters (fun i => 7 * i)%nat (fun _ l => rev l)
           16 true true true true 0%nat).
  - intros i l. apply Permutation_sym, Permutation_rev.
  - reflexivity.
Defined.

(* ================================================================== *)
(** * clipboard.py *)

Section ClipboardProperties.

Import clipboard.

Variable platform_system : str.
Variable Popen_communicate : list str -> bytes -> PopenResult.

Lemma try_block_returns_or_raises (text : str) :
  fst (try_block platform_system Popen_communicate text) <> FellThrough.
Proof.
  unfold try_block, run_tool.
  destruct (String.eqb platform_system "Linux").
  - destruct (Popen_communicate ["xclip"; "-selection"; "clipboard"] _);
      try discriminate.
    destruct (Popen_communicate ["xsel"; "--clipboard"; "--input"] _);
      discriminate.
  - destruct (String.eqb platform_system "Darwin").
    + destruct (Popen_communicate ["pbcopy"] _); discriminate.
    + destruct (String.eqb platform_system "Windows").
      * destruct (Popen_communicate ["clip"] _); discriminate.
      * discriminate.
Qed.

(** X23. [copy_to_clipboard] never starts the thread that would clear the
    clipboard: every path through its [try] block returns or raises, so
    the code after the block is not reached, and [clear_after] has no
    effect on what the function does or returns. *)
Theorem clipboard_is_never_cleared (text : str) (clear_after : Z) :
  copy_to_clipboard platform_system Popen_communicate text clear_after
  = copy_to_clipboard platform_system Popen_communicate text 0
  /\ forall t,
       ~ In (StartClearThread t)
            (snd (copy_to_clipboard platform_system Popen_communicate text
                    clear_after)).
Proof.
  unfold copy_to_clipboard, try_block, run_tool.
  destruct (String.eqb platform_system "Linux").
  - destruct (Popen_communicate ["xclip"; "-selection"; "clipboard"] _);
      try (split; [reflexivity | simpl; intros t H; intuition discriminate]).
    destruct (Popen_communicate ["xsel"; "--clipboard"; "--input"] _);
      split; try reflexivity; simpl; intros t H; intuition discriminate.
  - destruct (String.eqb platform_system "Darwin").
    + destruct (Popen_communicate ["pbcopy"] _);
        split; try reflexivity; simpl; intros t H; intuition discriminate.
    + destruct (String.eqb platform_system "Windows").
      * destruct (Popen_communicate ["clip"] _);
          split; try reflexivity; simpl; intros t H; intuition discriminate.
      * split; try reflexivity; simpl; intros t H; intuition discriminate.
Qed.

(** X24. When [copy_to_clipboard] returns [True], a clipboard program was
    given the encoded text and exited with status 0, and nothing was
    printed. *)
Theorem clipboard_success_means_tool_succeeded (text : str) (clear_after : Z) :
  fst (copy_to_clipboard platform_system Popen_communicate text clear_after)
  = true ->
  (exists argv,
      In (Run argv (str_encode text))
         (snd (copy_to_clipboard platform_system Popen_communicate text
                 clear_after))
      /\ Popen_communicate argv (str_encode text) = Exited 0)
  /\ forall s,
       ~ In (Printed s)
            (snd (copy_to_clipboard platform_system Popen_communicate text
                    clear_after)).
Proof.
  unfold copy_to_clipboard, try_block, run_tool.
  destruct (String.eqb platform_system "Linux").
  - destruct (Popen_communicate ["xclip"; "-selection"; "clipboard"]
                (str_encode text)) as [m|m|rc] eqn:E1.
    + destruct (Popen_communicate ["xsel"; "--clipboard"; "--input"]
                  (str_encode text)) as [m2|m2|rc] eqn:E2;
        cbn [fst snd]; try discriminate.
      intros Hrc. apply Z.eqb_eq in Hrc. subst rc. split.
      * exists ["xsel"; "--clipboard"; "--input"].
        split; [right; left; reflexivity | exact E2].
      * intros s [H|[H|[]]]; discriminate.
    + cbn [fst]. discriminate.
    + cbn [fst snd]. intros Hrc. apply Z.eqb_eq in Hrc. subst rc. split.
      * eexists. split; [left; reflexivity | exact E1].
      * intros s [H|[]]; discriminate.
  - destruct (String.eqb platform_system "Darwin").
    + destruct (Popen_communicate ["pbcopy"] (str_encode text))
        as [m|m|rc] eqn:E1; cbn [fst snd]; try discriminate.
      intros Hrc. apply Z.eqb_eq in Hrc. subst rc. split.
      * eexists. split; [left; reflexivity | exact E1].
      * intros s [H|[]]; discriminate.
    + destruct (String.eqb platform_system "Windows").
      * destruct (Popen_communicate ["clip"] (str_encode text))
          as [m|m|rc] eqn:E1; cbn [fst snd]; try discriminate.
        intros Hrc. apply Z.eqb_eq in Hrc. subst rc. split.
        -- eexists. split; [left; reflexivity | exact E1].
        -- intros s [H|[]]; discriminate.
      * cbn [fst]. discriminate.
Qed.

End ClipboardProperties.

Lemma clipboard_success_means_tool_succeeded_witness :
  (exists argv,
      In (clipboard.Run argv (str_encode "hunter2"))
         (snd (clipboard.copy_to_clipboard "Linux"
                 (fun argv _ =>
                    match argv with
                    | "xclip" :: _ => clipboard.FileNotFoundError "xclip"
                    | _ => clipboard.Exited 0
                    end)
                 "hunter2" 30))
      /\ (fun argv (_ : bytes) =>
            match argv with
            | "xclip" :: _ => clipboard.FileNotFoundError "xclip"
            | _ => clipboard.Exited 0
            end) argv (str_encode "hunter2") = clipboard.Exited 0)
  /\ forall s,
       ~ In (clipboard.Printed s)
            (snd (clipboard.copy_to_clipboard "Linux"
                    (fun argv _ =>
                       match argv with
                       | "xclip" :: _ => clipboard.FileNotFoundError "xclip"
                       | _ => clipboard.Exited 0
                       end)
                    "hunter2" 30)).
Proof.
  apply (clipboard_success_means_tool_succeeded "Linux"
           (fun argv _ =>
              match argv with
              | "xclip" :: _ => clipboard.FileNotFoundError "xclip"
              | _ => clipboard.Exited 0
              end)
           "hunter2" 30).
  reflexivity.
Defined.

(* ================================================================== *)
(** * The generate command *)



